(** * Browser automation service: task registry, dispatcher and broadcaster

    A shallow embedding of [service/task_queue.py], of the parts of
    [service/api_server.py] that drive the queue, and of
    [service/websocket_manager.py], with the properties the service's
    specification states about them.

    Python objects mutated in place (the [Task] records held by
    [TaskQueue.tasks], the subscriber sets held by
    [WebSocketManager.task_subscribers]) are reached through one owner only,
    so a method is a function from the owner's state to a completion and the
    owner's next state.  Calls to [logger] have no effect on that state and
    are left out. *)

From Stdlib Require Import ZArith String Ascii List DecimalString Lia.
From stdpp Require Import base option list strings gmap fin_maps fin_sets.
From stdpp Require Import sorting.

Local Open Scope string_scope.
#[local] Set Warnings "-clear-no-such-hyp".

(** ** Python values and completions *)

(** The JSON-like values that travel through the service as [Dict[str, Any]]. *)
#[warnings="-register-all"]
Inductive pyvalue : Type :=
| PNone
| PBool (b : bool)
| PInt (z : Z)
| PStr (s : string)
| PList (l : list pyvalue)
| PDict (d : list (string * pyvalue)).

(** A Python [dict] with [str] keys, in insertion order. *)
Abbreviation pydict := (list (string * pyvalue)).

(** [d[k]] read through [d.get(k)]. *)
Fixpoint dict_get (k : string) (d : pydict) : option pyvalue :=
  match d with
  | [] => None
  | (k', v) :: d' => if String.eqb k k' then Some v else dict_get k d'
  end.

(** [d[k] = v]: an existing key keeps its position, a new key goes last. *)
Fixpoint dict_set (k : string) (v : pyvalue) (d : pydict) : pydict :=
  match d with
  | [] => [(k, v)]
  | (k', v') :: d' =>
      if String.eqb k k' then (k, v) :: d' else (k', v') :: dict_set k v d'
  end.

Definition dict_keys (d : pydict) : list string := map fst d.

(** [x is not None] *)
Definition is_not_None (v : pyvalue) : bool :=
  match v with PNone => false | _ => true end.

(** The exceptions the modelled code raises. *)
Inductive pyexn : Type :=
| HTTPException (status_code : Z) (detail : string)
| AttributeError (msg : string)
| ConnectionError (msg : string)
| RuntimeError (msg : string).

(** How a call ends: with a value or with an exception. *)
Inductive completion (A : Type) : Type :=
| Returns (a : A)
| Raises (e : pyexn).
Arguments Returns {A} a.
Arguments Raises {A} e.

(** A method of an object with state [S]. *)
Definition Py (S A : Type) : Type := S -> completion A * S.

Definition ret {S A} (a : A) : Py S A := fun s => (Returns a, s).
Definition raise {S A} (e : pyexn) : Py S A := fun s => (Raises e, s).
Definition bind {S A B} (m : Py S A) (k : A -> Py S B) : Py S B :=
  fun s => match m s with
           | (Returns a, s') => k a s'
           | (Raises e, s') => (Raises e, s')
           end.
Definition gets {S A} (f : S -> A) : Py S A := fun s => (Returns (f s), s).
Definition modify {S} (f : S -> S) : Py S unit := fun s => (Returns tt, f s).

Notation "x <- m ;; k" := (bind m (fun x => k))
  (at level 100, m at next level, right associativity, only parsing).
Notation "m ;; k" := (bind m (fun _ => k))
  (at level 100, right associativity, only parsing).

(** The state a call leaves, and how it ended. *)
Definition exec {S A} (m : Py S A) (s : S) : S := snd (m s).
Definition outcome {S A} (m : Py S A) (s : S) : completion A := fst (m s).

(** ** [datetime] *)

(** A naive [datetime], as [datetime.utcnow()] returns it. *)
Record datetime : Type := mk_datetime {
  year : nat; month : nat; day : nat;
  hour : nat; minute : nat; second : nat; microsecond : nat
}.

Fixpoint zeros (n : nat) : string :=
  match n with
  | O => EmptyString
  | S n' => String "0" (zeros n')
  end.

(** [format(n, "0{width}d")] for a non-negative [n]. *)
Definition zero_pad (width n : nat) : string :=
  let digits := NilZero.string_of_uint (Nat.to_uint n) in
  zeros (width - String.length digits) ++ digits.

(** [datetime.isoformat()]: the fraction is printed only when it is not 0. *)
Definition isoformat (d : datetime) : string :=
  zero_pad 4 (year d) ++ "-" ++ zero_pad 2 (month d) ++ "-" ++ zero_pad 2 (day d)
  ++ "T" ++ zero_pad 2 (hour d) ++ ":" ++ zero_pad 2 (minute d)
  ++ ":" ++ zero_pad 2 (second d)
  ++ (if Nat.eqb (microsecond d) 0 then EmptyString
      else "." ++ zero_pad 6 (microsecond d)).

(** [x.isoformat() if x else None]; a [datetime] is always truthy. *)
Definition isoformat_or_None (d : option datetime) : pyvalue :=
  match d with
  | Some x => PStr (isoformat x)
  | None => PNone
  end.

(** ** [task_queue.py] *)

Inductive TaskStatus : Type := PENDING | RUNNING | COMPLETED | FAILED | CANCELLED.

#[global] Instance TaskStatus_eq_dec : EqDecision TaskStatus.
Proof. solve_decision. Defined.

(** [TaskStatus.value] *)
Definition value (s : TaskStatus) : string :=
  match s with
  | PENDING => "pending"
  | RUNNING => "running"
  | COMPLETED => "completed"
  | FAILED => "failed"
  | CANCELLED => "cancelled"
  end.

(** The members of the enumeration, in definition order. *)
Definition TaskStatus_members : list TaskStatus :=
  [PENDING; RUNNING; COMPLETED; FAILED; CANCELLED].

(** The dataclass [Task].  [result] and [error] are [Optional] and hold
    [PNone] until a transition stores something. *)
Record Task : Type := mk_Task {
  id : string;
  command : string;
  status : TaskStatus;
  created_at : datetime;
  started_at : option datetime;
  completed_at : option datetime;
  result : pyvalue;
  error : pyvalue;
  progress : list pyvalue;
  llm_provider : string;
  llm_model : string;
  browser_profile : string
}.

Definition with_status (s : TaskStatus) (t : Task) : Task :=
  mk_Task (id t) (command t) s (created_at t) (started_at t) (completed_at t)
          (result t) (error t) (progress t)
          (llm_provider t) (llm_model t) (browser_profile t).
Definition with_started_at (d : option datetime) (t : Task) : Task :=
  mk_Task (id t) (command t) (status t) (created_at t) d (completed_at t)
          (result t) (error t) (progress t)
          (llm_provider t) (llm_model t) (browser_profile t).
Definition with_completed_at (d : option datetime) (t : Task) : Task :=
  mk_Task (id t) (command t) (status t) (created_at t) (started_at t) d
          (result t) (error t) (progress t)
          (llm_provider t) (llm_model t) (browser_profile t).
Definition with_result (v : pyvalue) (t : Task) : Task :=
  mk_Task (id t) (command t) (status t) (created_at t) (started_at t)
          (completed_at t) v (error t) (progress t)
          (llm_provider t) (llm_model t) (browser_profile t).
Definition with_error (v : pyvalue) (t : Task) : Task :=
  mk_Task (id t) (command t) (status t) (created_at t) (started_at t)
          (completed_at t) (result t) v (progress t)
          (llm_provider t) (llm_model t) (browser_profile t).
Definition with_progress (p : list pyvalue) (t : Task) : Task :=
  mk_Task (id t) (command t) (status t) (created_at t) (started_at t)
          (completed_at t) (result t) (error t) p
          (llm_provider t) (llm_model t) (browser_profile t).

(** [Task.add_progress]; [details or {}] turns [None] and the empty dict
    into the empty dict. *)
Definition add_progress (step : string) (details : option pydict)
    (now : datetime) (t : Task) : Task :=
  let progress_entry :=
    PDict [("timestamp", PStr (isoformat now));
           ("step", PStr step);
           ("details", PDict (match details with
                              | Some (e :: d) => e :: d
                              | _ => []
                              end))] in
  with_progress (progress t ++ [progress_entry]) t.

(** [Task.to_dict]: [asdict] followed by the conversions of the timestamps
    and of the status. *)
Definition to_dict (t : Task) : pydict :=
  [("id", PStr (id t));
   ("command", PStr (command t));
   ("status", PStr (value (status t)));
   ("created_at", PStr (isoformat (created_at t)));
   ("started_at", isoformat_or_None (started_at t));
   ("completed_at", isoformat_or_None (completed_at t));
   ("result", result t);
   ("error", error t);
   ("progress", PList (progress t));
   ("llm_provider", PStr (llm_provider t));
   ("llm_model", PStr (llm_model t));
   ("browser_profile", PStr (browser_profile t))].

(** An [asyncio.Task], known by its identity. *)
Definition AsyncTask : Type := nat.

(** The class [TaskQueue].  The first four fields are the attributes set by
    [__init__].  The last two record what the methods ask of the asyncio
    event loop: the [pending_queue.put] coroutines that [create_task] has
    scheduled and that have not run yet, and the asyncio tasks on which
    [cancel()] was called. *)
Record TaskQueue : Type := mk_TaskQueue {
  tasks : gmap string Task;
  pending_queue : list string;
  max_concurrent_tasks : Z;
  running_tasks : gmap string AsyncTask;
  scheduled_puts : list string;
  cancel_requests : list AsyncTask
}.

Definition with_tasks (m : gmap string Task) (q : TaskQueue) : TaskQueue :=
  mk_TaskQueue m (pending_queue q) (max_concurrent_tasks q) (running_tasks q)
               (scheduled_puts q) (cancel_requests q).
Definition with_pending_queue (l : list string) (q : TaskQueue) : TaskQueue :=
  mk_TaskQueue (tasks q) l (max_concurrent_tasks q) (running_tasks q)
               (scheduled_puts q) (cancel_requests q).
Definition with_max_concurrent_tasks (c : Z) (q : TaskQueue) : TaskQueue :=
  mk_TaskQueue (tasks q) (pending_queue q) c (running_tasks q)
               (scheduled_puts q) (cancel_requests q).
Definition with_running_tasks (r : gmap string AsyncTask) (q : TaskQueue)
    : TaskQueue :=
  mk_TaskQueue (tasks q) (pending_queue q) (max_concurrent_tasks q) r
               (scheduled_puts q) (cancel_requests q).
Definition with_scheduled_puts (l : list string) (q : TaskQueue) : TaskQueue :=
  mk_TaskQueue (tasks q) (pending_queue q) (max_concurrent_tasks q)
               (running_tasks q) l (cancel_requests q).
Definition with_cancel_requests (l : list AsyncTask) (q : TaskQueue)
    : TaskQueue :=
  mk_TaskQueue (tasks q) (pending_queue q) (max_concurrent_tasks q)
               (running_tasks q) (scheduled_puts q) l.

(** [TaskQueue.__init__] *)
Definition TaskQueue_init : TaskQueue :=
  mk_TaskQueue ∅ [] 3 ∅ [] [].

(** [TaskQueue.create_task].  [task_id] is the string [uuid.uuid4()] gave and
    [now] the reading of the clock; [kwargs.get(k, d)] is [default d], the
    values being [str] as [Task] declares them. *)
Definition create_task (task_id : string) (now : datetime) (cmd : string)
    (kwargs : gmap string string) : Py TaskQueue string :=
  let task :=
    mk_Task task_id cmd PENDING now None None PNone PNone []
            (default "mac_studio" (kwargs !! "llm_provider"))
            (default "llama4:scout" (kwargs !! "llm_model"))
            (default "anti_bot" (kwargs !! "browser_profile")) in
  modify (fun q => with_tasks (<[task_id := task]> (tasks q)) q) ;;
  modify (fun q => with_scheduled_puts (scheduled_puts q ++ [task_id]) q) ;;
  ret task_id.

(** [TaskQueue.get_task] *)
Definition get_task (task_id : string) : Py TaskQueue (option Task) :=
  gets (fun q => tasks q !! task_id).

(** [TaskQueue.get_task_status] *)
Definition get_task_status (task_id : string) : Py TaskQueue (option pydict) :=
  task <- get_task task_id ;;
  match task with
  | None => ret None
  | Some task =>
      ret (Some
        [("id", PStr (id task));
         ("status", PStr (value (status task)));
         ("created_at", PStr (isoformat (created_at task)));
         ("started_at", isoformat_or_None (started_at task));
         ("completed_at", isoformat_or_None (completed_at task));
         ("command", PStr (command task));
         ("progress_steps", PInt (Z.of_nat (length (progress task))));
         ("has_result", PBool (is_not_None (result task)));
         ("error", error task)])
  end.

(** [TaskQueue.update_task_status].  [kwargs] holds the keyword arguments
    given beside [status]; [now] is what [datetime.utcnow()] returns when it
    is called.  Both paths return [None]; there is no [raise]. *)
Definition update_task_status (task_id : string) (new_status : TaskStatus)
    (kwargs : gmap string pyvalue) (now : datetime) : Py TaskQueue unit :=
  task <- get_task task_id ;;
  match task with
  | None => ret tt
  | Some task =>
      let task := with_status new_status task in
      let task :=
        if bool_decide (new_status = RUNNING)
           && bool_decide (started_at task = None)
        then with_started_at (Some now) task
        else if bool_decide (new_status ∈ [COMPLETED; FAILED; CANCELLED])
        then with_completed_at (Some now) task
        else task in
      let task :=
        match kwargs !! "result" with
        | Some v => with_result v task
        | None => task
        end in
      let task :=
        match kwargs !! "error" with
        | Some v => with_error v task
        | None => task
        end in
      modify (fun q => with_tasks (<[task_id := task]> (tasks q)) q)
  end.

(** [TaskQueue.add_task_progress]; a [Task] is always truthy. *)
Definition add_task_progress (task_id : string) (step : string)
    (details : option pydict) (now : datetime) : Py TaskQueue unit :=
  task <- get_task task_id ;;
  match task with
  | Some task =>
      modify (fun q =>
        with_tasks (<[task_id := add_progress step details now task]> (tasks q)) q)
  | None => ret tt
  end.

(** [TaskQueue.cancel_task] *)
Definition cancel_task (task_id : string) (now : datetime) : Py TaskQueue bool :=
  task <- get_task task_id ;;
  match task with
  | None => ret false
  | Some _ =>
      running <- gets running_tasks ;;
      match running !! task_id with
      | Some running_task =>
          modify (fun q =>
            with_cancel_requests (cancel_requests q ++ [running_task]) q) ;;
          modify (fun q => with_running_tasks (delete task_id (running_tasks q)) q)
      | None => ret tt
      end ;;
      update_task_status task_id CANCELLED ∅ now ;;
      ret true
  end.

(** The dict [get_queue_stats] returns, one field per key. *)
Record QueueStats : Type := mk_QueueStats {
  qs_total_tasks : nat;
  qs_pending_queue_size : nat;
  qs_running_tasks : nat;
  qs_max_concurrent : Z;
  qs_status_breakdown : list (string * nat)
}.

(** [sum(1 for task in self.tasks.values() if task.status == status)] *)
Definition count_status (s : TaskStatus) (q : TaskQueue) : nat :=
  length (filter (fun task => status task = s) (map snd (map_to_list (tasks q)))).

(** [TaskQueue.get_queue_stats] *)
Definition get_queue_stats : Py TaskQueue QueueStats :=
  gets (fun q =>
    let status_counts :=
      map (fun s => (value s, count_status s q)) TaskStatus_members in
    mk_QueueStats (size (tasks q)) (length (pending_queue q))
                  (size (running_tasks q)) (max_concurrent_tasks q)
                  status_counts).

(** [TaskQueue.get_next_task].  On an empty queue the [await] does not end
    unless the coroutine is cancelled, and then the method returns [None]. *)
Definition get_next_task : Py TaskQueue (option string) :=
  queue <- gets pending_queue ;;
  match queue with
  | [] => ret None
  | task_id :: rest =>
      modify (with_pending_queue rest) ;;
      ret (Some task_id)
  end.

(** [TaskQueue.mark_task_running] *)
Definition mark_task_running (task_id : string) (async_task : AsyncTask)
    (now : datetime) : Py TaskQueue unit :=
  modify (fun q =>
    with_running_tasks (<[task_id := async_task]> (running_tasks q)) q) ;;
  update_task_status task_id RUNNING ∅ now.

(** [TaskQueue.mark_task_completed] *)
Definition mark_task_completed (task_id : string) (res : pyvalue)
    (now : datetime) : Py TaskQueue unit :=
  modify (fun q =>
    if bool_decide (task_id ∈ dom (running_tasks q))
    then with_running_tasks (delete task_id (running_tasks q)) q
    else q) ;;
  update_task_status task_id COMPLETED {[ "result" := res ]} now.

(** [TaskQueue.mark_task_failed] *)
Definition mark_task_failed (task_id : string) (err : string)
    (now : datetime) : Py TaskQueue unit :=
  modify (fun q =>
    if bool_decide (task_id ∈ dom (running_tasks q))
    then with_running_tasks (delete task_id (running_tasks q)) q
    else q) ;;
  update_task_status task_id FAILED {[ "error" := PStr err ]} now.

(** [pending_queue.put(task_id)]; the queue has no size limit. *)
Definition pending_queue_put (task_id : string) : Py TaskQueue unit :=
  modify (fun q => with_pending_queue (pending_queue q ++ [task_id]) q).

(** ** [api_server.py], over the global [task_queue] *)

Module api_server.

(** [GET /api/tasks/{task_id}]; the dict [TaskQueue.get_task_status] builds
    is never empty, so [not task_status] tests for [None]. *)
Definition get_task_status (task_id : string) : Py TaskQueue pydict :=
  task_status <- get_task_status task_id ;;
  match task_status with
  | None | Some [] => raise (HTTPException 404 "Task not found")
  | Some task_status => ret task_status
  end.

(** [GET /api/tasks/{task_id}/result] *)
Definition get_task_result (task_id : string) : Py TaskQueue pydict :=
  task <- get_task task_id ;;
  match task with
  | None => raise (HTTPException 404 "Task not found")
  | Some task =>
      if bool_decide (status task ≠ COMPLETED)
      then raise (HTTPException 400
                    ("Task not completed (status: " ++ value (status task) ++ ")"))
      else
        match completed_at task with
        | None =>
            raise (AttributeError "'NoneType' object has no attribute 'isoformat'")
        | Some completed =>
            ret [("task_id", PStr task_id);
                 ("result", result task);
                 ("progress", PList (progress task));
                 ("completed_at", PStr (isoformat completed))]
        end
  end.

(** One pass through the body of the [while True] of [task_processor].
    [async_task] is the asyncio task that
    [asyncio.create_task(execute_task(task_id))] makes.  Nothing in the body
    raises, and nothing is awaited between the reading of the statistics and
    [mark_task_running]. *)
Definition task_processor_iteration (async_task : AsyncTask) (now : datetime)
    : Py TaskQueue unit :=
  task_id <- get_next_task ;;
  match task_id with
  | None => ret tt
  | Some task_id =>
      if String.eqb task_id EmptyString then ret tt
      else
        queue_stats <- get_queue_stats ;;
        ceiling <- gets max_concurrent_tasks ;;
        if (ceiling <=? Z.of_nat (qs_running_tasks queue_stats))%Z
        then pending_queue_put task_id
        else mark_task_running task_id async_task now
  end.

End api_server.

(** ** The service as a transition system

    What can happen to the global [task_queue] while the service runs.  Each
    event is one stretch of code between two [await]s that suspend. *)
Inductive event : Type :=
| EvExecute (task_id : string) (now : datetime) (cmd : string)
            (kwargs : gmap string string)
    (** [POST /api/execute]: [task_queue.create_task] *)
| EvPut
    (** the event loop runs the oldest scheduled [pending_queue.put] *)
| EvDispatch (async_task : AsyncTask) (now : datetime)
    (** one pass of [task_processor] *)
| EvProgress (task_id : string) (step : string) (details : option pydict)
             (now : datetime)
    (** [execute_task] and [handle_task_progress]: [add_task_progress] *)
| EvCompleted (task_id : string) (res : pyvalue) (now : datetime)
    (** [execute_task]: the worker returned, [mark_task_completed] *)
| EvFailed (task_id : string) (err : string) (now : datetime)
    (** [execute_task]: the worker raised, [mark_task_failed] *)
| EvCancel (task_id : string) (now : datetime)
    (** [DELETE /api/tasks/{task_id}]: [task_queue.cancel_task] *).

Definition step (q : TaskQueue) (e : event) : TaskQueue :=
  match e with
  | EvExecute task_id now cmd kwargs => exec (create_task task_id now cmd kwargs) q
  | EvPut =>
      match scheduled_puts q with
      | [] => q
      | task_id :: rest =>
          exec (pending_queue_put task_id) (with_scheduled_puts rest q)
      end
  | EvDispatch async_task now =>
      exec (api_server.task_processor_iteration async_task now) q
  | EvProgress task_id s details now =>
      exec (add_task_progress task_id s details now) q
  | EvCompleted task_id res now => exec (mark_task_completed task_id res now) q
  | EvFailed task_id err now => exec (mark_task_failed task_id err now) q
  | EvCancel task_id now => exec (cancel_task task_id now) q
  end.

Definition run (q : TaskQueue) (es : list event) : TaskQueue :=
  fold_left step es q.

(** ** [websocket_manager.py] *)

(** A [WebSocket], known by its identity (a Python set holds it by [id]). *)
Definition WebSocket : Type := nat.

(** The class [WebSocketManager].  [wire] is not an attribute: it records,
    oldest first, the messages [send_text] delivered, each with its receiver
    (the text sent is the [json.dumps] of the message). *)
Record WebSocketManager : Type := mk_WebSocketManager {
  active_connections : gset WebSocket;
  task_subscribers : gmap string (gset WebSocket);
  wire : list (WebSocket * pydict)
}.

Definition with_active_connections (a : gset WebSocket) (m : WebSocketManager)
    : WebSocketManager :=
  mk_WebSocketManager a (task_subscribers m) (wire m).
Definition with_task_subscribers (t : gmap string (gset WebSocket))
    (m : WebSocketManager) : WebSocketManager :=
  mk_WebSocketManager (active_connections m) t (wire m).
Definition with_wire (w : list (WebSocket * pydict)) (m : WebSocketManager)
    : WebSocketManager :=
  mk_WebSocketManager (active_connections m) (task_subscribers m) w.

(** [WebSocketManager.__init__] *)
Definition WebSocketManager_init : WebSocketManager :=
  mk_WebSocketManager ∅ ∅ [].

(** The truth value of an [Optional[str]]: [None] and the empty string are
    false. *)
Definition truthy (s : option string) : bool :=
  match s with
  | None => false
  | Some s => negb (String.eqb s EmptyString)
  end.

(** [WebSocketManager.connect].  [accepted] tells whether
    [await websocket.accept()] returned; when it raises, nothing after it
    runs. *)
Definition connect (websocket : WebSocket) (task_id : option string)
    (accepted : bool) : Py WebSocketManager unit :=
  (if accepted then ret tt
   else raise (ConnectionError "websocket.accept failed")) ;;
  modify (fun m =>
    with_active_connections ({[websocket]} ∪ active_connections m) m) ;;
  match task_id with
  | Some tid =>
      if truthy task_id then
        modify (fun m =>
          if bool_decide (tid ∉ dom (task_subscribers m))
          then with_task_subscribers (<[tid := ∅]> (task_subscribers m)) m
          else m) ;;
        modify (fun m =>
          with_task_subscribers
            (<[tid := {[websocket]} ∪ (task_subscribers m !!! tid)]>
               (task_subscribers m)) m)
      else ret tt
  | None => ret tt
  end.

(** The body of the [for] of [disconnect], for one item of the snapshot
    [list(self.task_subscribers.items())].  [subscribers] is the set the
    dict holds under [task_id]; the loop visits each key once, so the set is
    still as the snapshot has it. *)
Definition discard_subscriber (websocket : WebSocket)
    (subs : gmap string (gset WebSocket)) (item : string * gset WebSocket)
    : gmap string (gset WebSocket) :=
  let '(task_id, subscribers) := item in
  let subscribers := subscribers ∖ {[websocket]} in
  if bool_decide (subscribers = ∅)
  then delete task_id subs
  else <[task_id := subscribers]> subs.

(** [WebSocketManager.disconnect] *)
Definition disconnect (websocket : WebSocket) : Py WebSocketManager unit :=
  modify (fun m =>
    with_active_connections (active_connections m ∖ {[websocket]}) m) ;;
  modify (fun m =>
    with_task_subscribers
      (fold_left (discard_subscriber websocket)
                 (map_to_list (task_subscribers m)) (task_subscribers m)) m).

(** The [for] loop of [send_to_task_subscribers] over [receivers], the copy
    of the subscriber set: [send_text] raises for the sockets [broken]
    names, and those are collected in [disconnected]; the others receive the
    message. *)
Fixpoint send_loop (message : pydict) (broken : WebSocket -> bool)
    (receivers : list WebSocket) (disconnected : gset WebSocket)
    : Py WebSocketManager (gset WebSocket) :=
  match receivers with
  | [] => ret disconnected
  | websocket :: rest =>
      if broken websocket
      then send_loop message broken rest ({[websocket]} ∪ disconnected)
      else
        modify (fun m => with_wire (wire m ++ [(websocket, message)]) m) ;;
        send_loop message broken rest disconnected
  end.

(** [for websocket in disconnected: self.disconnect(websocket)] *)
Fixpoint disconnect_all (disconnected : list WebSocket)
    : Py WebSocketManager unit :=
  match disconnected with
  | [] => ret tt
  | websocket :: rest => disconnect websocket ;; disconnect_all rest
  end.

(** What another coroutine does to the manager while a send is suspended at
    an [await]: the body of [connect] after an accepted [accept()], a
    [disconnect], or a [send_text] of a send of its own. *)
Inductive mutation : Type :=
| MConnect (websocket : WebSocket) (task_id : option string)
| MDisconnect (websocket : WebSocket)
| MDeliver (websocket : WebSocket) (message : pydict).

Definition mutate (m : WebSocketManager) (x : mutation) : WebSocketManager :=
  match x with
  | MConnect websocket task_id => exec (connect websocket task_id true) m
  | MDisconnect websocket => exec (disconnect websocket) m
  | MDeliver websocket message =>
      with_wire (wire m ++ [(websocket, message)]) m
  end.

(** What happens while one [await websocket.send_text] of [send_to_all] is
    suspended: the mutations the other coroutines make, in order, and the
    connections the iterator of the live set goes on to yield when they leave
    the set with as many members as it had ([i_resume]: which of the members
    these are depends on the slots of the hash table, so it is an input). *)
Record interference : Type := mk_interference {
  i_mutations : list mutation;
  i_resume : list WebSocket
}.

(** The [for] of [send_to_all] asks the iterator of [self.active_connections]
    for the next connection: the iterator raises when the set no longer has
    the number of members it had when the loop started. *)
Definition iterator_check (expected : nat) : Py WebSocketManager unit :=
  active <- gets active_connections ;;
  if Nat.eqb (size active) expected then ret tt
  else raise (RuntimeError "Set changed size during iteration").

(** The [try] of the loop for one connection. *)
Definition send_one (message : pydict) (broken : WebSocket -> bool)
    (websocket : WebSocket) (disconnected : gset WebSocket)
    : Py WebSocketManager (gset WebSocket) :=
  if broken websocket then ret ({[websocket]} ∪ disconnected)
  else
    modify (fun m => with_wire (wire m ++ [(websocket, message)]) m) ;;
    ret disconnected.

(** The loop of [send_to_all] over the live set once no other coroutine runs
    any more. *)
Fixpoint send_loop_quiet (expected : nat) (message : pydict)
    (broken : WebSocket -> bool) (receivers : list WebSocket)
    (disconnected : gset WebSocket) : Py WebSocketManager (gset WebSocket) :=
  iterator_check expected ;;
  match receivers with
  | [] => ret disconnected
  | websocket :: rest =>
      disconnected <- send_one message broken websocket disconnected ;;
      send_loop_quiet expected message broken rest disconnected
  end.

(** The loop of [send_to_all] over the live set.  [during] lists, for the
    sends in turn, what the other coroutines do while the send is awaited;
    [receivers] is what the iterator has still to yield.  The [RuntimeError]
    of the iterator is raised at the [for], outside the [try], so it leaves
    the loop and the method. *)
Fixpoint send_loop_live (expected : nat) (message : pydict)
    (broken : WebSocket -> bool) (during : list interference)
    (receivers : list WebSocket) (disconnected : gset WebSocket)
    {struct during} : Py WebSocketManager (gset WebSocket) :=
  match during with
  | [] => send_loop_quiet expected message broken receivers disconnected
  | i :: during =>
      iterator_check expected ;;
      match receivers with
      | [] => ret disconnected
      | websocket :: rest =>
          disconnected <- send_one message broken websocket disconnected ;;
          modify (fun m => fold_left mutate (i_mutations i) m) ;;
          active <- gets active_connections ;;
          let rest :=
            match i_mutations i with
            | [] => rest
            | _ :: _ => filter (fun w => bool_decide (w ∈ active)) (i_resume i)
            end in
          send_loop_live expected message broken during rest disconnected
      end
  end.

(** [WebSocketManager.send_to_all].  The loop runs over
    [self.active_connections] itself, not over a copy, and is suspended at
    every [send_text]; [during] is what the other coroutines do meanwhile.
    When the loop raises, the clean-up after it does not run. *)
Definition send_to_all (message : pydict) (now : datetime)
    (broken : WebSocket -> bool) (during : list interference)
    : Py WebSocketManager unit :=
  active <- gets active_connections ;;
  if bool_decide (active = ∅) then ret tt
  else
    let message := dict_set "timestamp" (PStr (isoformat now)) message in
    disconnected <-
      send_loop_live (size active) message broken during (elements active) ∅ ;;
    disconnect_all (elements disconnected).

(** [WebSocketManager.send_to_task_subscribers] *)
Definition send_to_task_subscribers (task_id : string) (message : pydict)
    (now : datetime) (broken : WebSocket -> bool) : Py WebSocketManager unit :=
  subs <- gets task_subscribers ;;
  match subs !! task_id with
  | None => ret tt
  | Some subscribers =>
      let message := dict_set "task_id" (PStr task_id) message in
      let message := dict_set "timestamp" (PStr (isoformat now)) message in
      disconnected <- send_loop message broken (elements subscribers) ∅ ;;
      disconnect_all (elements disconnected)
  end.

(** [WebSocketManager.broadcast_task_update] *)
Definition broadcast_task_update (task_id : string) (update_type : string)
    (data : pydict) (now : datetime) (broken : WebSocket -> bool)
    : Py WebSocketManager unit :=
  let message := [("type", PStr "task_update");
                  ("update_type", PStr update_type);
                  ("data", PDict data)] in
  send_to_task_subscribers task_id message now broken.

(** [WebSocketManager.broadcast_system_message] *)
Definition broadcast_system_message (message_type : string) (data : pydict)
    (now : datetime) (broken : WebSocket -> bool)
    (during : list interference) : Py WebSocketManager unit :=
  let message := [("type", PStr "system");
                  ("message_type", PStr message_type);
                  ("data", PDict data)] in
  send_to_all message now broken during.

(** The calls a client of the manager can make.  [send_to_task_subscribers]
    loops over a copy of the subscribers, so what other coroutines do while
    it is suspended does not reach its loop; it is run here in one piece.
    [send_to_all] loops over the live set: its call carries what the other
    coroutines do to the manager while it is suspended, and it ends with the
    [RuntimeError] of the iterator when they change the size of the set. *)
Inductive ws_call : Type :=
| Connect (websocket : WebSocket) (task_id : option string) (accepted : bool)
| Disconnect (websocket : WebSocket)
| SendToAll (message : pydict) (now : datetime) (broken : WebSocket -> bool)
            (during : list interference)
| SendToTaskSubscribers (task_id : string) (message : pydict) (now : datetime)
                        (broken : WebSocket -> bool).

Definition ws_step (m : WebSocketManager) (c : ws_call) : WebSocketManager :=
  match c with
  | Connect websocket task_id accepted => exec (connect websocket task_id accepted) m
  | Disconnect websocket => exec (disconnect websocket) m
  | SendToAll message now broken during =>
      exec (send_to_all message now broken during) m
  | SendToTaskSubscribers task_id message now broken =>
      exec (send_to_task_subscribers task_id message now broken) m
  end.

Definition ws_run (m : WebSocketManager) (cs : list ws_call) : WebSocketManager :=
  fold_left ws_step cs m.

(** ** Notions of the specification *)

(** The edges of the state machine of section 4.2 of the specification. *)
Definition legal_edge (from to : TaskStatus) : bool :=
  match from, to with
  | PENDING, RUNNING | PENDING, CANCELLED
  | RUNNING, COMPLETED | RUNNING, FAILED | RUNNING, CANCELLED => true
  | _, _ => false
  end.

(** The terminal statuses. *)
Definition terminal (s : TaskStatus) : bool :=
  match s with
  | COMPLETED | FAILED | CANCELLED => true
  | PENDING | RUNNING => false
  end.

(** What [update_task_status] does to the record it finds. *)
Definition updated_task (new_status : TaskStatus) (kwargs : gmap string pyvalue)
    (now : datetime) (t : Task) : Task :=
  mk_Task (id t) (command t) new_status (created_at t)
    (match new_status, started_at t with
     | RUNNING, None => Some now
     | _, _ => started_at t
     end)
    (if terminal new_status then Some now else completed_at t)
    (default (result t) (kwargs !! "result"))
    (default (error t) (kwargs !! "error"))
    (progress t) (llm_provider t) (llm_model t) (browser_profile t).

(** The execution parameters of a task. *)
Definition parameters (t : Task) : string * string * string :=
  (llm_provider t, llm_model t, browser_profile t).

(** [needle in hay] on strings. *)
Definition is_substring (needle hay : string) : bool :=
  match index 0 needle hay with
  | Some _ => true
  | None => false
  end.

(** Sample times. *)
Definition t0 : datetime := mk_datetime 2024 5 17 9 30 0 0.
Definition t1 : datetime := mk_datetime 2024 5 17 9 30 1 250.
Definition t2 : datetime := mk_datetime 2024 5 17 9 30 7 125.
Definition t3 : datetime := mk_datetime 2024 5 17 9 31 0 0.

(** A registry in which the worker has completed the task ["a"]. *)
Definition q_completed : TaskQueue :=
  run TaskQueue_init
    [EvExecute "a" t0 "open example.org" ∅; EvPut; EvDispatch 1 t1;
     EvProgress "a" "Starting execution" None t1;
     EvCompleted "a" (PDict [("success", PBool true)]) t2].

(** A registry in which the worker has failed on the task ["a"]. *)
Definition q_failed : TaskQueue :=
  run TaskQueue_init
    [EvExecute "a" t0 "open example.org" ∅; EvPut; EvDispatch 1 t1;
     EvProgress "a" "Starting execution" None t1;
     EvFailed "a" "boom" t2].

(** A registry in which the task ["a"] waits in the queue. *)
Definition q_pending : TaskQueue :=
  run TaskQueue_init
    [EvExecute "a" t0 "open example.org" {[ "llm_provider" := "gemini" ]}; EvPut].

(** The registry before [update_task_status] runs inside [cancel_task]. *)
Definition cancel_running (task_id : string) (q : TaskQueue) : TaskQueue :=
  match running_tasks q !! task_id with
  | Some running_task =>
      with_running_tasks (delete task_id (running_tasks q))
        (with_cancel_requests (cancel_requests q ++ [running_task]) q)
  | None => q
  end.

(** The registry before [update_task_status] runs inside
    [mark_task_completed] and [mark_task_failed]. *)
Definition forget_running (task_id : string) (q : TaskQueue) : TaskQueue :=
  if bool_decide (task_id ∈ dom (running_tasks q))
  then with_running_tasks (delete task_id (running_tasks q)) q
  else q.

(** The status of the task [task_id], when the registry has it. *)
Definition status_of (task_id : string) (q : TaskQueue) : option TaskStatus :=
  status <$> tasks q !! task_id.

(** Whether the event creates the task [task_id]. *)
Definition creates (task_id : string) (e : event) : bool :=
  match e with
  | EvExecute task_id' _ _ _ => String.eqb task_id' task_id
  | _ => false
  end.

(** What the registry's methods do to one task record. *)
Inductive task_update : (Task -> Task) -> Prop :=
| tu_none : task_update (fun t => t)
| tu_status s kw now : s <> PENDING -> task_update (updated_task s kw now)
| tu_progress s details now : task_update (add_progress s details now).

(** The registry when the service starts: [main.py] stores the configured
    ceiling in the global [task_queue] before the server runs. *)
Definition TaskQueue_configured (C : Z) : TaskQueue :=
  with_max_concurrent_tasks C TaskQueue_init.

(** The keys of the dict a status query returns. *)
Definition status_keys : list string :=
  ["id"; "status"; "created_at"; "started_at"; "completed_at"; "command";
   "progress_steps"; "has_result"; "error"].

(** A task that is waiting has not been started. *)
Definition pending_not_started (q : TaskQueue) : Prop :=
  forall task_id t,
    tasks q !! task_id = Some t -> status t = PENDING -> started_at t = None.

(** What the dispatcher keeps true of the registry under the ceiling [C]:
    the ceiling is [C], at most [C] asyncio tasks are tracked, and every
    task in status [RUNNING] is tracked. *)
Definition dispatch_inv (C : Z) (q : TaskQueue) : Prop :=
  max_concurrent_tasks q = C
  /\ (Z.of_nat (size (running_tasks q)) <= Z.max 0 C)%Z
  /\ forall task_id t,
       tasks q !! task_id = Some t -> status t = RUNNING ->
       is_Some (running_tasks q !! task_id).

(** What [disconnect] leaves of one subscriber set: nothing when the set
    becomes empty. *)
Definition pruned (websocket : WebSocket) (subscribers : gset WebSocket)
    : option (gset WebSocket) :=
  if bool_decide (subscribers ∖ {[websocket]} = ∅) then None
  else Some (subscribers ∖ {[websocket]}).

(** The bookkeeping of the broadcaster: no task id is mapped to an empty
    set, and every subscriber is an active connection. *)
Definition ws_inv (m : WebSocketManager) : Prop :=
  forall task_id subscribers,
    task_subscribers m !! task_id = Some subscribers ->
    subscribers <> ∅ /\ subscribers ⊆ active_connections m.

(** [send_text] raises on the connection 1 and on no other. *)
Definition first_broken (websocket : WebSocket) : bool := Nat.eqb websocket 1.

(** Two tasks are created and queued, and the dispatcher makes two passes. *)
Definition two_tasks : list event :=
  [EvExecute "a" t0 "first" ∅; EvExecute "b" t0 "second" ∅;
   EvPut; EvPut; EvDispatch 1 t1; EvDispatch 2 t2].

(** Two subscribers of the task ["a"] and one connection without a filter;
    then an update for ["a"], which the first connection fails to take. *)
Definition three_connections : list ws_call :=
  [Connect 1 (Some "a") true; Connect 2 (Some "a") true; Connect 3 None true;
   SendToTaskSubscribers "a" [("type", PStr "task_update")] t1 first_broken].

(** ** More of [task_queue.py] and [api_server.py] *)

(** The fields by which two naive [datetime]s are compared, most significant
    first. *)
Definition datetime_fields (d : datetime) : list nat :=
  [year d; month d; day d; hour d; minute d; second d; microsecond d].

(** [a < b] on field lists of one length, the first difference deciding. *)
Fixpoint lex_ltb (a b : list nat) : bool :=
  match a, b with
  | x :: a', y :: b' =>
      if Nat.ltb x y then true
      else if Nat.ltb y x then false
      else lex_ltb a' b'
  | _, _ => false
  end.

(** [a < b] on [datetime]s. *)
Definition datetime_ltb (a b : datetime) : bool :=
  lex_ltb (datetime_fields a) (datetime_fields b).

(** One step of [sorted(..., key=lambda t: t.created_at, reverse=True)]: the
    task goes before the first task that was not created after it. *)
Fixpoint insert_by_created_at (t : Task) (l : list Task) : list Task :=
  match l with
  | [] => [t]
  | u :: l' =>
      if datetime_ltb (created_at t) (created_at u)
      then u :: insert_by_created_at t l'
      else t :: l
  end.

(** [sorted(values, key=lambda t: t.created_at, reverse=True)]: most recent
    first, tasks created at the same time in the order [values] has them
    (the sort is stable, also with [reverse]). *)
Definition sorted_by_created_at (values : list Task) : list Task :=
  foldr insert_by_created_at [] values.

(** The slice [l[:limit]]: a negative [limit] counts from the end. *)
Definition slice_to {A} (limit : Z) (l : list A) : list A :=
  if (0 <=? limit)%Z then take (Z.to_nat limit) l
  else take (length l - Z.to_nat (- limit)) l.

(** [TaskQueue.get_all_tasks] over the tasks [values] that
    [self.tasks.values()] yields. *)
Definition all_tasks_of (values : list Task) (limit : Z) : list pydict :=
  map to_dict (slice_to limit (sorted_by_created_at values)).

(** [TaskQueue.get_all_tasks].  A Python dict yields its values in insertion
    order, which [tasks] does not record: among tasks created at the same
    time the order of the result is the map's, not the insertion's. *)
Definition get_all_tasks (limit : Z) : Py TaskQueue (list pydict) :=
  gets (fun q => all_tasks_of (map snd (map_to_list (tasks q))) limit).

(** The sum of the counts of a status breakdown. *)
Definition breakdown_total (b : list (string * nat)) : nat :=
  foldr (fun e n => snd e + n) 0 b.

(** The ids the dispatcher will pull or tracks: scheduled, queued, running. *)
Definition known_ids (q : TaskQueue) : Prop :=
  (forall i, i ∈ scheduled_puts q -> is_Some (tasks q !! i))
  /\ (forall i, i ∈ pending_queue q -> is_Some (tasks q !! i))
  /\ (forall i, is_Some (running_tasks q !! i) -> is_Some (tasks q !! i))
  /\ (forall i t, tasks q !! i = Some t -> id t = i).

(** The fields of a task that no update writes. *)
Definition identity (t : Task) : string * string * datetime :=
  (id t, command t, created_at t).

(** The value of a field of the status query's answer. *)
Definition status_field (k : string) (task_id : string) (q : TaskQueue)
    : option pyvalue :=
  match outcome (get_task_status task_id) q with
  | Returns (Some d) => dict_get k d
  | _ => None
  end.

(** ** More of [websocket_manager.py] *)

(** [WebSocketManager.broadcast_agent_step] *)
Definition broadcast_agent_step (task_id : string) (step_data : pydict)
    (now : datetime) (broken : WebSocket -> bool) : Py WebSocketManager unit :=
  broadcast_task_update task_id "agent_step" step_data now broken.

(** [WebSocketManager.broadcast_task_started] *)
Definition broadcast_task_started (task_id : string) (task_data : pydict)
    (now : datetime) (broken : WebSocket -> bool) : Py WebSocketManager unit :=
  broadcast_task_update task_id "task_started" task_data now broken.

(** [WebSocketManager.broadcast_task_completed] *)
Definition broadcast_task_completed (task_id : string) (res : pydict)
    (now : datetime) (broken : WebSocket -> bool) : Py WebSocketManager unit :=
  broadcast_task_update task_id "task_completed" res now broken.

(** [WebSocketManager.broadcast_task_failed] *)
Definition broadcast_task_failed (task_id : string) (err : pydict)
    (now : datetime) (broken : WebSocket -> bool) : Py WebSocketManager unit :=
  broadcast_task_update task_id "task_failed" err now broken.

(** [WebSocketManager.broadcast_browser_action] *)
Definition broadcast_browser_action (task_id : string) (action : string)
    (details : pydict) (now : datetime) (broken : WebSocket -> bool)
    : Py WebSocketManager unit :=
  let action_data := [("action", PStr action); ("details", PDict details)] in
  broadcast_task_update task_id "browser_action" action_data now broken.

(** The dict [get_connection_stats] returns, one field per key. *)
Record ConnectionStats : Type := mk_ConnectionStats {
  cs_total_connections : nat;
  cs_task_subscriptions : gmap string nat;
  cs_total_task_subscribers : nat
}.

(** [WebSocketManager.get_connection_stats] *)
Definition get_connection_stats : Py WebSocketManager ConnectionStats :=
  gets (fun m =>
    mk_ConnectionStats
      (size (active_connections m))
      (size <$> task_subscribers m)
      (foldr (fun subscribers n => size subscribers + n) 0
             (map snd (map_to_list (task_subscribers m))))).

(** What the clean-up of a send leaves of one subscriber set, [dead] being
    the connections that failed: nothing when no subscriber is left. *)
Definition pruned_set (dead subscribers : gset WebSocket)
    : option (gset WebSocket) :=
  if bool_decide (subscribers ∖ dead = ∅) then None
  else Some (subscribers ∖ dead).

(** The envelope that [broadcast_task_update] sends. *)
Definition task_update_envelope (task_id update_type : string) (data : pydict)
    (now : datetime) : pydict :=
  [("type", PStr "task_update");
   ("update_type", PStr update_type);
   ("data", PDict data);
   ("task_id", PStr task_id);
   ("timestamp", PStr (isoformat now))].

(** ** The service: the two global objects side by side *)

Record Service : Type := mk_Service {
  task_queue : TaskQueue;
  websocket_manager : WebSocketManager
}.

(** A method of the global [task_queue], run in the service. *)
Definition on_task_queue {A} (m : Py TaskQueue A) : Py Service A :=
  fun s =>
    let '(c, q) := m (task_queue s) in
    (c, mk_Service q (websocket_manager s)).

(** A method of the global [websocket_manager], run in the service. *)
Definition on_websocket_manager {A} (m : Py WebSocketManager A) : Py Service A :=
  fun s =>
    let '(c, w) := m (websocket_manager s) in
    (c, mk_Service (task_queue s) w).

(** The body of [ExecuteCommandRequest]; the three selectors are given as
    [str] here. *)
Record ExecuteCommandRequest : Type := mk_ExecuteCommandRequest {
  req_command : string;
  req_llm_provider : string;
  req_llm_model : string;
  req_browser_profile : string
}.

(** [ExecuteCommandResponse] *)
Record ExecuteCommandResponse : Type := mk_ExecuteCommandResponse {
  resp_task_id : string;
  resp_status : string;
  resp_message : string
}.

Module endpoints.

(** [POST /api/execute].  Nothing in the [try] raises, so the handler of
    [Exception] that answers 500 is never entered.  [task_id] is the uuid
    drawn, [now] the time of the creation and [sent] that of the
    broadcast. *)
Definition execute_command (request : ExecuteCommandRequest)
    (task_id : string) (now sent : datetime) (broken : WebSocket -> bool)
    : Py Service ExecuteCommandResponse :=
  task_id <- on_task_queue
               (create_task task_id now (req_command request)
                  {[ "llm_provider" := req_llm_provider request;
                     "llm_model" := req_llm_model request;
                     "browser_profile" := req_browser_profile request ]}) ;;
  on_websocket_manager
    (broadcast_task_started task_id
       [("command", PStr (req_command request));
        ("llm_provider", PStr (req_llm_provider request));
        ("llm_model", PStr (req_llm_model request))]
       sent broken) ;;
  ret (mk_ExecuteCommandResponse task_id "queued"
         "Task created and queued for execution").

(** [DELETE /api/tasks/{task_id}] *)
Definition cancel_task (task_id : string) (now sent : datetime)
    (broken : WebSocket -> bool) : Py Service pydict :=
  success <- on_task_queue (cancel_task task_id now) ;;
  if negb success then raise (HTTPException 404 "Task not found")
  else
    on_websocket_manager
      (broadcast_task_update task_id "task_cancelled" [] sent broken) ;;
    ret [("message", PStr "Task cancelled")].

(** [GET /api/tasks]: the listing and the statistics, the two entries of
    the dict returned. *)
Definition list_tasks (limit : Z) : Py Service (list pydict * QueueStats) :=
  listed <- on_task_queue (get_all_tasks limit) ;;
  queue_stats <- on_task_queue get_queue_stats ;;
  ret (listed, queue_stats).

(** [handle_task_progress]; [now] is the time of the record, [sent] that of
    the broadcast. *)
Definition handle_task_progress (task_id : string) (step : string)
    (details : pydict) (now sent : datetime) (broken : WebSocket -> bool)
    : Py Service unit :=
  on_task_queue (add_task_progress task_id step (Some details) now) ;;
  on_websocket_manager
    (broadcast_agent_step task_id
       [("step", PStr step); ("details", PDict details)] sent broken).

(** One call of the progress callback by the worker. *)
Record ProgressCall : Type := mk_ProgressCall {
  pc_step : string;
  pc_details : pydict;
  pc_now : datetime;
  pc_sent : datetime
}.

(** The calls of the progress callback while the worker runs, in order. *)
Fixpoint worker_progress (task_id : string) (calls : list ProgressCall)
    (broken : WebSocket -> bool) : Py Service unit :=
  match calls with
  | [] => ret tt
  | c :: rest =>
      handle_task_progress task_id (pc_step c) (pc_details c) (pc_now c)
                           (pc_sent c) broken ;;
      worker_progress task_id rest broken
  end.

(** [execute_task], run from start to end with nothing else in between.
    The worker,
    [automation_service.execute_command], is what it does to the service:
    the [calls] of the progress callback, and then either the dict it
    returns or the text of the exception it raises.  [started] and [ended]
    are the times of the first and of the last record, [started_sent] and
    [ended_sent] those of the two broadcasts. *)
Definition execute_task (task_id : string) (started started_sent : datetime)
    (calls : list ProgressCall) (worker : pydict + string)
    (ended ended_sent : datetime) (broken : WebSocket -> bool)
    : Py Service unit :=
  task <- on_task_queue (get_task task_id) ;;
  match task with
  | None => ret tt
  | Some _ =>
      on_task_queue
        (add_task_progress task_id "Starting execution" None started) ;;
      on_websocket_manager
        (broadcast_agent_step task_id
           [("step", PStr "Starting execution"); ("status", PStr "running")]
           started_sent broken) ;;
      worker_progress task_id calls broken ;;
      match worker with
      | inl res =>
          on_task_queue (mark_task_completed task_id (PDict res) ended) ;;
          on_websocket_manager
            (broadcast_task_completed task_id res ended_sent broken)
      | inr error_msg =>
          on_task_queue (mark_task_failed task_id error_msg ended) ;;
          on_websocket_manager
            (broadcast_task_failed task_id [("error", PStr error_msg)]
               ended_sent broken)
      end
  end.

(** The progress entry that [Task.add_progress] makes of a worker's call. *)
Definition entry_of (c : ProgressCall) : pyvalue :=
  PDict [("timestamp", PStr (isoformat (pc_now c)));
         ("step", PStr (pc_step c));
         ("details", PDict (pc_details c))].

End endpoints.

(** A task in a terminal status has its completion time. *)
Definition terminal_completed (q : TaskQueue) : Prop :=
  forall task_id t,
    tasks q !! task_id = Some t -> terminal (status t) = true ->
    is_Some (completed_at t).

(** While the first send of a [send_to_all] is awaited, a new client
    connects. *)
Definition a_client_connects : list interference :=
  [mk_interference [MConnect 4 None] []].

(** ** The transition operation *)

Lemma update_task_status_unknown q task_id s kw now :
  tasks q !! task_id = None ->
  update_task_status task_id s kw now q = (Returns tt, q).
Proof.
  intros H. unfold update_task_status, bind, get_task, gets. simpl.
  by rewrite H.
Qed.

Lemma updated_task_eq s kw now t :
  (let task := with_status s t in
   let task :=
     if bool_decide (s = RUNNING) && bool_decide (started_at task = None)
     then with_started_at (Some now) task
     else if bool_decide (s ∈ [COMPLETED; FAILED; CANCELLED])
          then with_completed_at (Some now) task
          else task in
   let task :=
     match kw !! "result" with
     | Some v => with_result v task
     | None => task
     end in
   match kw !! "error" with
   | Some v => with_error v task
   | None => task
   end) = updated_task s kw now t.
Proof.
  unfold updated_task. cbv zeta.
  destruct (kw !! "result"), (kw !! "error"), t as [? ? ? ? [?|] ? ? ? ? ? ? ?];
    destruct s; reflexivity.
Qed.

Lemma update_task_status_known q task_id s kw now t :
  tasks q !! task_id = Some t ->
  update_task_status task_id s kw now q
  = (Returns tt, with_tasks (<[task_id := updated_task s kw now t]> (tasks q)) q).
Proof.
  intros H. unfold update_task_status, bind, get_task, gets. simpl.
  rewrite H. unfold modify. do 3 f_equal. apply updated_task_eq.
Qed.

Lemma update_task_status_returns q task_id s kw now :
  outcome (update_task_status task_id s kw now) q = Returns tt.
Proof.
  unfold outcome. destruct (tasks q !! task_id) as [t|] eqn:H.
  - by rewrite (update_task_status_known _ _ _ _ _ _ H).
  - by rewrite (update_task_status_unknown _ _ _ _ _ H).
Qed.

Lemma tasks_cancel_running task_id q :
  tasks (cancel_running task_id q) = tasks q.
Proof. unfold cancel_running. by destruct (running_tasks q !! task_id). Qed.

Lemma cancel_task_unknown q task_id now :
  tasks q !! task_id = None -> cancel_task task_id now q = (Returns false, q).
Proof.
  intros H. unfold cancel_task, bind, get_task, gets. simpl. by rewrite H.
Qed.

Lemma cancel_task_known q task_id now t :
  tasks q !! task_id = Some t ->
  cancel_task task_id now q
  = (Returns true,
     with_tasks (<[task_id := updated_task CANCELLED ∅ now t]> (tasks q))
                (cancel_running task_id q)).
Proof.
  intros H. unfold cancel_task, bind, get_task, gets. simpl. rewrite H.
  assert (Hk : tasks (cancel_running task_id q) !! task_id = Some t)
    by by rewrite tasks_cancel_running.
  pose proof (update_task_status_known _ _ CANCELLED ∅ now _ Hk) as Hu.
  unfold cancel_running in Hu |- *.
  destruct (running_tasks q !! task_id) as [h|]; unfold modify; simpl;
    unfold bind; rewrite Hu; reflexivity.
Qed.

Lemma tasks_forget_running task_id q :
  tasks (forget_running task_id q) = tasks q.
Proof. unfold forget_running. by case_bool_decide. Qed.

Lemma mark_task_completed_eq q task_id res now :
  mark_task_completed task_id res now q
  = update_task_status task_id COMPLETED {[ "result" := res ]} now
      (forget_running task_id q).
Proof. reflexivity. Qed.

Lemma mark_task_failed_eq q task_id err now :
  mark_task_failed task_id err now q
  = update_task_status task_id FAILED {[ "error" := PStr err ]} now
      (forget_running task_id q).
Proof. reflexivity. Qed.

Lemma mark_task_running_eq q task_id h now :
  mark_task_running task_id h now q
  = update_task_status task_id RUNNING ∅ now
      (with_running_tasks (<[task_id := h]> (running_tasks q)) q).
Proof. reflexivity. Qed.

Lemma add_task_progress_unknown q task_id s details now :
  tasks q !! task_id = None ->
  add_task_progress task_id s details now q = (Returns tt, q).
Proof.
  intros H. unfold add_task_progress, bind, get_task, gets. simpl.
  by rewrite H.
Qed.

Lemma add_task_progress_known q task_id s details now t :
  tasks q !! task_id = Some t ->
  add_task_progress task_id s details now q
  = (Returns tt,
     with_tasks (<[task_id := add_progress s details now t]> (tasks q)) q).
Proof.
  intros H. unfold add_task_progress, bind, get_task, gets. simpl.
  by rewrite H.
Qed.

Lemma status_of_update q task_id s kw now t :
  tasks q !! task_id = Some t ->
  status_of task_id (exec (update_task_status task_id s kw now) q) = Some s.
Proof.
  intros H. unfold exec, status_of.
  rewrite (update_task_status_known _ _ _ _ _ _ H). simpl.
  by rewrite lookup_insert_eq.
Qed.

(** C1, as the code has it: [update_task_status] checks no edge.  For every
    registry, task id and requested status the call returns normally; when
    the id is known the task's status becomes the requested one, whether or
    not the edge is one of the state machine, and when the id is unknown the
    registry is left as it was.  Neither case raises or reports anything. *)
Theorem update_task_status_unvalidated (q : TaskQueue) (task_id : string)
    (s : TaskStatus) (kw : gmap string pyvalue) (now : datetime) :
  outcome (update_task_status task_id s kw now) q = Returns tt
  /\ match tasks q !! task_id with
     | Some t =>
         status_of task_id (exec (update_task_status task_id s kw now) q)
         = Some s
     | None => exec (update_task_status task_id s kw now) q = q
     end.
Proof.
  split; [apply update_task_status_returns |].
  destruct (tasks q !! task_id) as [t|] eqn:H.
  - by apply status_of_update with t.
  - unfold exec. by rewrite (update_task_status_unknown _ _ _ _ _ H).
Qed.

(** C1 fails on the code: in [q_completed] the task ["a"] is [COMPLETED],
    the edge to [CANCELLED] is not one of the state machine, and yet
    [update_task_status] returns normally and stores [CANCELLED]; for the
    unknown id ["b"] it returns normally too, the registry unchanged. *)
Lemma update_task_status_accepts_illegal_edge :
  status_of "a" q_completed = Some COMPLETED
  /\ legal_edge COMPLETED CANCELLED = false
  /\ outcome (update_task_status "a" CANCELLED ∅ t3) q_completed = Returns tt
  /\ status_of "a" (exec (update_task_status "a" CANCELLED ∅ t3) q_completed)
     = Some CANCELLED
  /\ tasks q_completed !! "b" = None
  /\ update_task_status "b" CANCELLED ∅ t3 q_completed
     = (Returns tt, q_completed).
Proof. repeat split; vm_compute; reflexivity. Qed.

(** ** Terminal statuses *)

Lemma status_of_cancel q task_id now t :
  tasks q !! task_id = Some t ->
  status_of task_id (exec (cancel_task task_id now) q) = Some CANCELLED.
Proof.
  intros H. unfold exec, status_of. rewrite (cancel_task_known _ _ _ _ H).
  simpl. by rewrite lookup_insert_eq.
Qed.

(** C2, as the code has it: a terminal status is not protected.  For every
    task the registry knows, whatever its status, [update_task_status] stores
    the requested status, [cancel_task] stores [CANCELLED] and returns [True],
    and [mark_task_running], [mark_task_completed] and [mark_task_failed]
    store [RUNNING], [COMPLETED] and [FAILED]; [cancel_task] returns [False]
    only for an unknown id, and then leaves the registry as it was. *)
Theorem terminal_status_not_protected (q : TaskQueue) (task_id : string)
    (s : TaskStatus) (kw : gmap string pyvalue) (h : AsyncTask)
    (res : pyvalue) (err : string) (now : datetime) :
  match tasks q !! task_id with
  | Some t =>
      status_of task_id (exec (update_task_status task_id s kw now) q) = Some s
      /\ outcome (cancel_task task_id now) q = Returns true
      /\ status_of task_id (exec (cancel_task task_id now) q) = Some CANCELLED
      /\ status_of task_id (exec (mark_task_running task_id h now) q)
         = Some RUNNING
      /\ status_of task_id (exec (mark_task_completed task_id res now) q)
         = Some COMPLETED
      /\ status_of task_id (exec (mark_task_failed task_id err now) q)
         = Some FAILED
  | None => cancel_task task_id now q = (Returns false, q)
  end.
Proof.
  destruct (tasks q !! task_id) as [t|] eqn:H.
  - repeat split.
    + by apply status_of_update with t.
    + unfold outcome. by rewrite (cancel_task_known _ _ _ _ H).
    + by apply status_of_cancel with t.
    + unfold exec. rewrite mark_task_running_eq.
      by apply status_of_update with t.
    + unfold exec. rewrite mark_task_completed_eq.
      apply status_of_update with t. by rewrite tasks_forget_running.
    + unfold exec. rewrite mark_task_failed_eq.
      apply status_of_update with t. by rewrite tasks_forget_running.
  - by apply cancel_task_unknown.
Qed.

(** C2 fails on the code: the task ["a"] of [q_completed] is [COMPLETED], a
    terminal status, and [cancel_task] answers [True] and leaves it
    [CANCELLED]. *)
Lemma cancel_task_changes_terminal_status :
  status_of "a" q_completed = Some COMPLETED
  /\ terminal COMPLETED = true
  /\ outcome (cancel_task "a" t3) q_completed = Returns true
  /\ status_of "a" (exec (cancel_task "a" t3) q_completed) = Some CANCELLED.
Proof. repeat split; vm_compute; reflexivity. Qed.

(** ** Progress *)

(** C6, as the code has it: [add_task_progress] looks at the id only.  When
    the registry knows the id it appends exactly one entry to that task's
    progress, whatever the task's status, and changes nothing else; when the
    id is unknown it leaves the registry as it was.  It always returns
    normally. *)
Theorem add_task_progress_appends (q : TaskQueue) (task_id : string)
    (s : string) (details : option pydict) (now : datetime) :
  outcome (add_task_progress task_id s details now) q = Returns tt
  /\ match tasks q !! task_id with
     | Some t =>
         exists entry,
           exec (add_task_progress task_id s details now) q
           = with_tasks
               (<[task_id := with_progress (progress t ++ [entry]) t]> (tasks q))
               q
     | None => exec (add_task_progress task_id s details now) q = q
     end.
Proof.
  unfold outcome, exec. destruct (tasks q !! task_id) as [t|] eqn:H.
  - rewrite (add_task_progress_known _ _ _ _ _ _ H). split; [done |].
    unfold add_progress. eauto.
  - by rewrite (add_task_progress_unknown _ _ _ _ _ H).
Qed.

(** C6 fails on the code: the task ["a"] of [q_completed] is [COMPLETED], a
    terminal status, it has one progress entry, and after
    [add_task_progress] it has two. *)
Lemma add_task_progress_on_terminal_task :
  status_of "a" q_completed = Some COMPLETED
  /\ terminal COMPLETED = true
  /\ (length ∘ progress <$> tasks q_completed !! "a") = Some 1
  /\ (length ∘ progress
        <$> tasks (exec (add_task_progress "a" "late" None t3) q_completed)
            !! "a") = Some 2.
Proof. repeat split; vm_compute; reflexivity. Qed.

(** ** How the events change the task records *)

Lemma exec_update_task_status q task_id s kw now :
  exec (update_task_status task_id s kw now) q
  = with_tasks (alter (updated_task s kw now) task_id (tasks q)) q.
Proof.
  unfold exec. destruct (tasks q !! task_id) as [t|] eqn:H.
  - rewrite (update_task_status_known _ _ _ _ _ _ H). simpl. f_equal.
    apply map_eq. intros j. rewrite lookup_alter, lookup_insert.
    case_decide; subst; by rewrite ?H.
  - rewrite (update_task_status_unknown _ _ _ _ _ H). simpl.
    rewrite alter_id' by done. by destruct q.
Qed.

Lemma exec_add_task_progress q task_id s details now :
  exec (add_task_progress task_id s details now) q
  = with_tasks (alter (add_progress s details now) task_id (tasks q)) q.
Proof.
  unfold exec. destruct (tasks q !! task_id) as [t|] eqn:H.
  - rewrite (add_task_progress_known _ _ _ _ _ _ H). simpl. f_equal.
    apply map_eq. intros j. rewrite lookup_alter, lookup_insert.
    case_decide; subst; by rewrite ?H.
  - rewrite (add_task_progress_unknown _ _ _ _ _ H). simpl.
    rewrite alter_id' by done. by destruct q.
Qed.

Lemma exec_cancel_task q task_id now :
  tasks (exec (cancel_task task_id now) q)
  = alter (updated_task CANCELLED ∅ now) task_id (tasks q).
Proof.
  unfold exec. destruct (tasks q !! task_id) as [t|] eqn:H.
  - rewrite (cancel_task_known _ _ _ _ H). simpl.
    apply map_eq. intros j. rewrite lookup_alter, lookup_insert.
    case_decide; subst; by rewrite ?H.
  - rewrite (cancel_task_unknown _ _ _ H). simpl.
    by rewrite alter_id'.
Qed.

Lemma lookup_alter_update (f : Task -> Task) (m : gmap string Task) i j :
  task_update f ->
  exists g, alter f i m !! j = g <$> m !! j /\ task_update g.
Proof.
  intros Hf. destruct (decide (i = j)) as [->|Hne].
  - exists f. by rewrite lookup_alter_eq.
  - exists (fun t => t). rewrite lookup_alter_ne by done.
    split; [by destruct (m !! j) | constructor].
Qed.

Lemma lookup_same_update (m : gmap string Task) j :
  exists g, m !! j = g <$> m !! j /\ task_update g.
Proof. exists (fun t => t). split; [by destruct (m !! j) | constructor]. Qed.

Lemma task_processor_iteration_eq q h now :
  api_server.task_processor_iteration h now q
  = match pending_queue q with
    | [] => (Returns tt, q)
    | task_id :: rest =>
        if String.eqb task_id EmptyString
        then (Returns tt, with_pending_queue rest q)
        else if (max_concurrent_tasks q <=? Z.of_nat (size (running_tasks q)))%Z
             then (Returns tt, with_pending_queue (rest ++ [task_id]) q)
             else mark_task_running task_id h now (with_pending_queue rest q)
    end.
Proof.
  unfold api_server.task_processor_iteration.
  cbv [bind gets modify ret get_next_task get_queue_stats pending_queue_put].
  destruct (pending_queue q) as [|task_id rest] eqn:Hq; [done |].
  destruct (String.eqb task_id EmptyString); [done |]. simpl.
  destruct (_ <=? _)%Z; done.
Qed.

Lemma tasks_task_processor_iteration q h now :
  tasks (exec (api_server.task_processor_iteration h now) q) = tasks q
  \/ exists task_id,
       tasks (exec (api_server.task_processor_iteration h now) q)
       = alter (updated_task RUNNING ∅ now) task_id (tasks q).
Proof.
  unfold exec. rewrite task_processor_iteration_eq.
  destruct (pending_queue q) as [|task_id rest]; [by left |].
  destruct (String.eqb task_id EmptyString); [by left |].
  destruct (_ <=? _)%Z; [by left |].
  right. exists task_id. rewrite mark_task_running_eq.
  match goal with
  | |- tasks (update_task_status ?i ?s ?k ?n ?x).2 = _ =>
      change ((update_task_status i s k n x).2)
        with (exec (update_task_status i s k n) x)
  end.
  by rewrite exec_update_task_status.
Qed.

(** Apart from the creation of the task itself, an event leaves a task
    record as it is or applies one of the registry's updates to it. *)
Lemma step_lookup q e task_id :
  creates task_id e = false ->
  exists g, tasks (step q e) !! task_id = g <$> tasks q !! task_id
            /\ task_update g.
Proof.
  intros Hc. destruct e as [i now cmd kw| |h now|i s d now|i r now|i err now|i now];
    simpl in *.
  - apply String.eqb_neq in Hc. unfold exec. simpl.
    rewrite lookup_insert_ne by done. apply lookup_same_update.
  - destruct (scheduled_puts q); [apply lookup_same_update |].
    unfold exec. simpl. apply lookup_same_update.
  - destruct (tasks_task_processor_iteration q h now) as [->|[i ->]].
    + apply lookup_same_update.
    + apply lookup_alter_update. by constructor.
  - rewrite exec_add_task_progress. simpl.
    apply lookup_alter_update. by constructor.
  - unfold exec. rewrite mark_task_completed_eq.
    fold (exec (update_task_status i COMPLETED {["result" := r]} now)
               (forget_running i q)).
    rewrite exec_update_task_status. simpl. rewrite tasks_forget_running.
    apply lookup_alter_update. by constructor.
  - unfold exec. rewrite mark_task_failed_eq.
    fold (exec (update_task_status i FAILED {["error" := PStr err]} now)
               (forget_running i q)).
    rewrite exec_update_task_status. simpl. rewrite tasks_forget_running.
    apply lookup_alter_update. by constructor.
  - rewrite exec_cancel_task. apply lookup_alter_update. by constructor.
Qed.

Lemma task_update_parameters g t :
  task_update g -> parameters (g t) = parameters t.
Proof. by destruct 1. Qed.

Lemma task_update_started_at g t d :
  task_update g -> started_at t = Some d -> started_at (g t) = Some d.
Proof.
  destruct 1 as [|s kw now _|]; simpl; try done.
  intros ->. by destruct s.
Qed.

Lemma task_update_pending g t :
  task_update g -> status (g t) = PENDING -> status t = PENDING.
Proof. destruct 1; simpl; done. Qed.

Lemma task_update_not_started g t :
  task_update g -> status (g t) = PENDING ->
  started_at t = None -> started_at (g t) = None.
Proof. destruct 1; simpl; done. Qed.

(** ** Results *)

(** C7, as the code has it: [get_task_result] changes nothing; for an
    unknown id it raises 404 "Task not found"; for a task that is not
    [COMPLETED] it raises 400 with a text made of the current status alone,
    so that a [FAILED] task's stored error text is not in it; for a
    [COMPLETED] task it returns the stored result (with the progress and the
    completion time), and right after [mark_task_completed] that result is
    the payload the worker returned. *)
Theorem get_task_result_outcomes (q : TaskQueue) (task_id : string) :
  exec (api_server.get_task_result task_id) q = q
  /\ match tasks q !! task_id with
     | None =>
         outcome (api_server.get_task_result task_id) q
         = Raises (HTTPException 404 "Task not found")
     | Some t =>
         match status t, completed_at t with
         | COMPLETED, Some c =>
             outcome (api_server.get_task_result task_id) q
             = Returns [("task_id", PStr task_id);
                        ("result", result t);
                        ("progress", PList (progress t));
                        ("completed_at", PStr (isoformat c))]
         | COMPLETED, None =>
             exists msg,
               outcome (api_server.get_task_result task_id) q
               = Raises (AttributeError msg)
         | s, _ =>
             outcome (api_server.get_task_result task_id) q
             = Raises (HTTPException 400
                         ("Task not completed (status: " ++ value s ++ ")"))
         end
         /\ forall res now,
              outcome (api_server.get_task_result task_id)
                      (exec (mark_task_completed task_id res now) q)
              = Returns [("task_id", PStr task_id);
                         ("result", res);
                         ("progress", PList (progress t));
                         ("completed_at", PStr (isoformat now))]
     end.
Proof.
  split.
  - unfold exec, api_server.get_task_result, bind, get_task, gets. simpl.
    destruct (tasks q !! task_id) as [t|]; [| done].
    case_bool_decide; [done |]. by destruct (completed_at t).
  - destruct (tasks q !! task_id) as [t|] eqn:H.
    + split.
      * unfold outcome, api_server.get_task_result, bind, get_task, gets.
        simpl. rewrite H.
        destruct (status t) eqn:Hs, (completed_at t) eqn:Hc;
          case_bool_decide; try done; eauto.
      * intros res now. unfold exec. rewrite mark_task_completed_eq.
        assert (Hk : tasks (forget_running task_id q) !! task_id = Some t)
          by by rewrite tasks_forget_running.
        rewrite (update_task_status_known _ _ _ _ _ _ Hk).
        unfold outcome, api_server.get_task_result, bind, get_task, gets.
        simpl. rewrite lookup_insert_eq. simpl.
        by rewrite lookup_singleton_eq.
    + unfold outcome, api_server.get_task_result, bind, get_task, gets.
      simpl. by rewrite H.
Qed.

(** C7 fails on the code: the task ["a"] of [q_failed] is [FAILED] with the
    error text "boom", and the failure of [get_task_result] carries the
    status only; "boom" is nowhere in it. *)
Lemma get_task_result_drops_error_text :
  status_of "a" q_failed = Some FAILED
  /\ (error <$> tasks q_failed !! "a") = Some (PStr "boom")
  /\ outcome (api_server.get_task_result "a") q_failed
     = Raises (HTTPException 400 "Task not completed (status: failed)")
  /\ is_substring "boom" "Task not completed (status: failed)" = false.
Proof. repeat split; vm_compute; reflexivity. Qed.

(** ** Execution parameters *)

Lemma step_creates q e task_id :
  creates task_id e = true ->
  exists now cmd (kw : gmap string string),
    tasks (step q e) !! task_id
    = Some (mk_Task task_id cmd PENDING now None None PNone PNone []
              (default "mac_studio" (kw !! "llm_provider"))
              (default "llama4:scout" (kw !! "llm_model"))
              (default "anti_bot" (kw !! "browser_profile"))).
Proof.
  destruct e as [i now cmd kw| | | | | |]; simpl; try done.
  intros ->%String.eqb_eq. exists now, cmd, kw.
  unfold exec. simpl. by rewrite lookup_insert_eq.
Qed.

Lemma run_parameters es q task_id t :
  tasks q !! task_id = Some t ->
  forallb (fun e => negb (creates task_id e)) es = true ->
  exists t', tasks (run q es) !! task_id = Some t'
             /\ parameters t' = parameters t.
Proof.
  revert q t. induction es as [|e es IH]; intros q t Ht Hes; simpl in *.
  - eauto.
  - apply andb_true_iff in Hes as [He Hes]. apply negb_true_iff in He.
    destruct (step_lookup q e task_id He) as (g & Hg & Hu).
    rewrite Ht in Hg. simpl in Hg.
    destruct (IH _ _ Hg Hes) as (t' & Ht' & Hp).
    exists t'. split; [done |]. by rewrite Hp, task_update_parameters.
Qed.

Lemma get_task_status_keys q task_id t :
  tasks q !! task_id = Some t ->
  exists d, get_task_status task_id q = (Returns (Some d), q)
            /\ dict_keys d = status_keys.
Proof.
  intros H. unfold get_task_status, bind, get_task, gets. simpl. rewrite H.
  eexists. split; reflexivity.
Qed.

(** C8, as the code has it: the execution parameters given to [create_task]
    (or their defaults) are stored in the task and no later event other than
    a creation under the same id changes them; the status query returns a
    dict with the keys [status_keys] only, so it does not echo them; the dict
    of [Task.to_dict], which the task listing uses, does. *)
Theorem parameters_fixed_not_in_status (q : TaskQueue) (task_id : string)
    (now : datetime) (cmd : string) (kw : gmap string string)
    (es : list event) :
  forallb (fun e => negb (creates task_id e)) es = true ->
  exists t d,
    tasks (run q (EvExecute task_id now cmd kw :: es)) !! task_id = Some t
    /\ parameters t = (default "mac_studio" (kw !! "llm_provider"),
                       default "llama4:scout" (kw !! "llm_model"),
                       default "anti_bot" (kw !! "browser_profile"))
    /\ outcome (get_task_status task_id)
               (run q (EvExecute task_id now cmd kw :: es))
       = Returns (Some d)
    /\ dict_keys d = status_keys
    /\ dict_get "llm_provider" (to_dict t) = Some (PStr (llm_provider t))
    /\ dict_get "llm_model" (to_dict t) = Some (PStr (llm_model t))
    /\ dict_get "browser_profile" (to_dict t) = Some (PStr (browser_profile t)).
Proof.
  intros Hes. simpl.
  assert (Hc' : tasks (step q (EvExecute task_id now cmd kw)) !! task_id
                = Some (mk_Task task_id cmd PENDING now None None PNone PNone []
                          (default "mac_studio" (kw !! "llm_provider"))
                          (default "llama4:scout" (kw !! "llm_model"))
                          (default "anti_bot" (kw !! "browser_profile")))).
  { unfold step, exec. simpl. by rewrite lookup_insert_eq. }
  destruct (run_parameters es _ _ _ Hc' Hes) as (t & Ht & Hp).
  destruct (get_task_status_keys _ _ _ Ht) as (d & Hd & Hk).
  exists t, d. repeat split; try done.
  unfold outcome. simpl in Hd |- *. by rewrite Hd.
Qed.

(** The theorem at a task created with its own model, then queued, admitted
    and cancelled. *)
Lemma parameters_fixed_not_in_status_witness :
  forallb (fun e => negb (creates "a" e))
          [EvPut; EvDispatch 1 t1; EvCancel "a" t2] = true
  /\ exists t d,
       tasks (run TaskQueue_init
                [EvExecute "a" t0 "open example.org" {[ "llm_model" := "qwen" ]};
                 EvPut; EvDispatch 1 t1; EvCancel "a" t2]) !! "a" = Some t
       /\ parameters t
          = (default "mac_studio"
               (({[ "llm_model" := "qwen" ]} : gmap string string)
                  !! "llm_provider"),
             default "llama4:scout"
               (({[ "llm_model" := "qwen" ]} : gmap string string)
                  !! "llm_model"),
             default "anti_bot"
               (({[ "llm_model" := "qwen" ]} : gmap string string)
                  !! "browser_profile"))
       /\ outcome (get_task_status "a")
                  (run TaskQueue_init
                     [EvExecute "a" t0 "open example.org"
                                {[ "llm_model" := "qwen" ]};
                      EvPut; EvDispatch 1 t1; EvCancel "a" t2])
          = Returns (Some d)
       /\ dict_keys d = status_keys
       /\ dict_get "llm_provider" (to_dict t) = Some (PStr (llm_provider t))
       /\ dict_get "llm_model" (to_dict t) = Some (PStr (llm_model t))
       /\ dict_get "browser_profile" (to_dict t)
          = Some (PStr (browser_profile t)).
Proof.
  split; [reflexivity |].
  apply (parameters_fixed_not_in_status TaskQueue_init "a" t0
           "open example.org" {[ "llm_model" := "qwen" ]}
           [EvPut; EvDispatch 1 t1; EvCancel "a" t2]).
  reflexivity.
Defined.

(** C8 fails on the code: the task ["a"] of [q_pending] was created with the
    provider "gemini", and the dict the status query returns has no entry
    for the provider, the model or the browser profile. *)
Lemma get_task_status_omits_parameters :
  (parameters <$> tasks q_pending !! "a")
  = Some ("gemini", "llama4:scout", "anti_bot")
  /\ outcome (get_task_status "a") q_pending
     = Returns (Some [("id", PStr "a");
                      ("status", PStr "pending");
                      ("created_at", PStr "2024-05-17T09:30:00");
                      ("started_at", PNone);
                      ("completed_at", PNone);
                      ("command", PStr "open example.org");
                      ("progress_steps", PInt 0);
                      ("has_result", PBool false);
                      ("error", PNone)])
  /\ outcome (api_server.get_task_status "a") q_pending
     = Returns [("id", PStr "a");
                ("status", PStr "pending");
                ("created_at", PStr "2024-05-17T09:30:00");
                ("started_at", PNone);
                ("completed_at", PNone);
                ("command", PStr "open example.org");
                ("progress_steps", PInt 0);
                ("has_result", PBool false);
                ("error", PNone)].
Proof. repeat split; vm_compute; reflexivity. Qed.

(** ** Timestamps *)

(** X6: [started_at] is written once: no event other than a creation under the
    same id changes a start time that is set. *)
Lemma started_at_write_once es q task_id t d :
  tasks q !! task_id = Some t ->
  started_at t = Some d ->
  forallb (fun e => negb (creates task_id e)) es = true ->
  exists t', tasks (run q es) !! task_id = Some t' /\ started_at t' = Some d.
Proof.
  revert q t. induction es as [|e es IH]; intros q t Ht Hd Hes; simpl in *.
  - eauto.
  - apply andb_true_iff in Hes as [He Hes]. apply negb_true_iff in He.
    destruct (step_lookup q e task_id He) as (g & Hg & Hu).
    rewrite Ht in Hg. simpl in Hg.
    apply (IH _ _ Hg); [by apply task_update_started_at | done].
Qed.

(** C5 on the code: [completed_at] is not written once.  The worker
    completed the task ["a"] of [q_completed] at [t2]; a cancel request at
    [t3] replaces that time by [t3], while the start time [t1] stays. *)
Theorem completed_at_overwritten :
  (completed_at <$> tasks q_completed !! "a") = Some (Some t2)
  /\ (completed_at <$> tasks (step q_completed (EvCancel "a" t3)) !! "a")
     = Some (Some t3)
  /\ (started_at <$> tasks q_completed !! "a") = Some (Some t1)
  /\ (started_at <$> tasks (step q_completed (EvCancel "a" t3)) !! "a")
     = Some (Some t1).
Proof. repeat split; vm_compute; reflexivity. Qed.

(** ** Cancelling a waiting task *)

Lemma pending_not_started_step q e :
  pending_not_started q -> pending_not_started (step q e).
Proof.
  intros Hq task_id t' Ht' Hs.
  destruct (creates task_id e) eqn:Hc.
  - destruct (step_creates q e task_id Hc) as (now & cmd & kw & Hn).
    rewrite Hn in Ht'. by injection Ht' as <-.
  - destruct (step_lookup q e task_id Hc) as (g & Hg & Hu).
    rewrite Hg in Ht'. destruct (tasks q !! task_id) as [t|] eqn:Ht; [| done].
    injection Ht' as <-.
    apply task_update_not_started; [done | done |].
    apply (Hq task_id t Ht). by apply task_update_pending with g.
Qed.

Lemma pending_not_started_run es q :
  pending_not_started q -> pending_not_started (run q es).
Proof.
  revert q. induction es as [|e es IH]; intros q Hq; simpl; [done |].
  apply IH. by apply pending_not_started_step.
Qed.

Lemma pending_not_started_init C : pending_not_started (TaskQueue_configured C).
Proof. intros task_id t Ht. simpl in Ht. by rewrite lookup_empty in Ht. Qed.

(** What [cancel_task] does for a waiting task: in every state the service
    reaches, a cancel request for a task in status [PENDING] returns [True]
    and stores [CANCELLED] with the completion time set and the start time
    still unset, and the pending queue is the same list as before, the id of
    the task included. *)
Theorem cancel_pending_task (C : Z) (es : list event) (task_id : string)
    (t : Task) (now : datetime) :
  tasks (run (TaskQueue_configured C) es) !! task_id = Some t ->
  status t = PENDING ->
  outcome (cancel_task task_id now) (run (TaskQueue_configured C) es)
  = Returns true
  /\ tasks (exec (cancel_task task_id now) (run (TaskQueue_configured C) es))
       !! task_id
     = Some (with_completed_at (Some now) (with_status CANCELLED t))
  /\ started_at (with_completed_at (Some now) (with_status CANCELLED t)) = None
  /\ pending_queue (exec (cancel_task task_id now)
                         (run (TaskQueue_configured C) es))
     = pending_queue (run (TaskQueue_configured C) es).
Proof.
  intros Ht Hs.
  pose proof (pending_not_started_run es _ (pending_not_started_init C)
                _ _ Ht Hs) as Hn.
  unfold outcome, exec. rewrite (cancel_task_known _ _ _ _ Ht). simpl.
  split_and!; [done | | done |].
  - rewrite lookup_insert_eq. by f_equal.
  - unfold cancel_running. by destruct (running_tasks _ !! task_id).
Qed.

(** The theorem at a task that has just been queued. *)
Lemma cancel_pending_task_witness :
  tasks (run (TaskQueue_configured 3)
             [EvExecute "a" t0 "open example.org" ∅; EvPut]) !! "a"
  = Some (mk_Task "a" "open example.org" PENDING t0 None None PNone PNone []
                  "mac_studio" "llama4:scout" "anti_bot")
  /\ outcome (cancel_task "a" t1)
             (run (TaskQueue_configured 3)
                  [EvExecute "a" t0 "open example.org" ∅; EvPut])
     = Returns true
  /\ tasks (exec (cancel_task "a" t1)
                 (run (TaskQueue_configured 3)
                      [EvExecute "a" t0 "open example.org" ∅; EvPut])) !! "a"
     = Some (mk_Task "a" "open example.org" CANCELLED t0 None (Some t1)
                     PNone PNone [] "mac_studio" "llama4:scout" "anti_bot")
  /\ pending_queue (exec (cancel_task "a" t1)
                         (run (TaskQueue_configured 3)
                              [EvExecute "a" t0 "open example.org" ∅; EvPut]))
     = pending_queue (run (TaskQueue_configured 3)
                          [EvExecute "a" t0 "open example.org" ∅; EvPut]).
Proof.
  split; [reflexivity |].
  pose proof (cancel_pending_task 3
                [EvExecute "a" t0 "open example.org" ∅; EvPut] "a"
                (mk_Task "a" "open example.org" PENDING t0 None None PNone
                         PNone [] "mac_studio" "llama4:scout" "anti_bot") t1
                eq_refl eq_refl) as (H1 & H2 & _ & H4).
  exact (conj H1 (conj H2 H4)).
Defined.

(** C4, the code at the input where it departs from the claim: the task
    ["a"] of [q_pending] is [PENDING] and waits in the queue.  The cancel
    request stores [CANCELLED], but the id is still in the queue, and the
    next pass of the dispatcher, which does not look at the status, admits
    it: the cancelled task is [RUNNING] and has a start time. *)
Lemma cancelled_pending_task_is_admitted :
  status_of "a" q_pending = Some PENDING
  /\ pending_queue q_pending = ["a"]
  /\ status_of "a" (step q_pending (EvCancel "a" t1)) = Some CANCELLED
  /\ pending_queue (step q_pending (EvCancel "a" t1)) = ["a"]
  /\ status_of "a" (run q_pending [EvCancel "a" t1; EvDispatch 1 t2])
     = Some RUNNING
  /\ (started_at <$> tasks (run q_pending [EvCancel "a" t1; EvDispatch 1 t2])
                     !! "a")
     = Some (Some t2).
Proof. repeat split; vm_compute; reflexivity. Qed.

(** ** The concurrency ceiling *)

Lemma running_tasks_forget_running task_id q :
  running_tasks (forget_running task_id q) = delete task_id (running_tasks q).
Proof.
  unfold forget_running. case_bool_decide as H; [done |].
  rewrite delete_id; [done |]. by apply not_elem_of_dom.
Qed.

Lemma running_tasks_cancel_running task_id q :
  running_tasks (cancel_running task_id q) = delete task_id (running_tasks q).
Proof.
  unfold cancel_running.
  destruct (running_tasks q !! task_id) eqn:H; [done |]. by rewrite delete_id.
Qed.

Lemma max_concurrent_tasks_forget_running task_id q :
  max_concurrent_tasks (forget_running task_id q) = max_concurrent_tasks q.
Proof. unfold forget_running. by case_bool_decide. Qed.

Lemma max_concurrent_tasks_cancel_running task_id q :
  max_concurrent_tasks (cancel_running task_id q) = max_concurrent_tasks q.
Proof. unfold cancel_running. by destruct (running_tasks q !! task_id). Qed.

Lemma size_delete_le (r : gmap string AsyncTask) i : size (delete i r) <= size r.
Proof. apply map_subseteq_size, delete_subseteq. Qed.

(** A transition to a terminal status that also stops tracking the task
    keeps the dispatcher's invariant. *)
Lemma dispatch_inv_finish C q q' task_id s kw now :
  s <> RUNNING ->
  max_concurrent_tasks q' = max_concurrent_tasks q ->
  running_tasks q' = delete task_id (running_tasks q) ->
  tasks q' = alter (updated_task s kw now) task_id (tasks q) ->
  dispatch_inv C q -> dispatch_inv C q'.
Proof.
  intros Hs Hm Hr Ht (HC & Hsz & Hrun). split_and!.
  - congruence.
  - rewrite Hr. pose proof (size_delete_le (running_tasks q) task_id). lia.
  - intros i t Hi Hst. rewrite Ht in Hi. rewrite Hr.
    destruct (decide (task_id = i)) as [->|Hne].
    + rewrite lookup_alter_eq in Hi.
      destruct (tasks q !! i); by simplify_eq/=.
    + rewrite lookup_alter_ne in Hi by done.
      rewrite lookup_delete_ne by done. eauto.
Qed.

Lemma dispatch_inv_step C q e : dispatch_inv C q -> dispatch_inv C (step q e).
Proof.
  intros Hq.
  destruct e as [i now cmd kw| |h now|i s d now|i r now|i err now|i now]; simpl.
  - destruct Hq as (HC & Hsz & Hrun). split_and!; try done.
    intros j t Hj Hst. cbn in Hj |- *.
    destruct (decide (i = j)) as [->|Hne].
    + rewrite lookup_insert_eq in Hj. by simplify_eq/=.
    + rewrite lookup_insert_ne in Hj by done. eauto.
  - destruct (scheduled_puts q); [done |]. by unfold exec.
  - unfold exec. rewrite task_processor_iteration_eq.
    destruct (pending_queue q) as [|i rest]; [done |].
    destruct (String.eqb i EmptyString); [done |].
    destruct (Z.leb_spec (max_concurrent_tasks q)
                         (Z.of_nat (size (running_tasks q)))) as [Hfull|Hfree];
      [done |].
    rewrite mark_task_running_eq.
    match goal with
    | |- dispatch_inv _ (update_task_status ?i ?s ?k ?n ?x).2 =>
        change ((update_task_status i s k n x).2)
          with (exec (update_task_status i s k n) x)
    end.
    rewrite exec_update_task_status. simpl.
    destruct Hq as (HC & Hsz & Hrun). split_and!; simpl.
    + done.
    + pose proof (map_size_insert i h (running_tasks q)) as Hins.
      destruct (running_tasks q !! i); unfold Datatypes.id in Hins; lia.
    + intros j t Hj Hst. destruct (decide (i = j)) as [->|Hne].
      * rewrite lookup_insert_eq. eauto.
      * rewrite lookup_alter_ne in Hj by done.
        rewrite lookup_insert_ne by done. eauto.
  - rewrite exec_add_task_progress.
    destruct Hq as (HC & Hsz & Hrun). split_and!; try done. simpl.
    intros j t Hj Hst. destruct (decide (i = j)) as [->|Hne].
    + rewrite lookup_alter_eq in Hj.
      destruct (tasks q !! j) as [t'|] eqn:Ht'; simplify_eq/=. eauto.
    + rewrite lookup_alter_ne in Hj by done. eauto.
  - apply (dispatch_inv_finish C q _ i COMPLETED {["result" := r]} now);
      try done; unfold exec; rewrite mark_task_completed_eq;
      fold (exec (update_task_status i COMPLETED {["result" := r]} now)
                 (forget_running i q));
      rewrite exec_update_task_status; simpl.
    + apply max_concurrent_tasks_forget_running.
    + apply running_tasks_forget_running.
    + by rewrite tasks_forget_running.
  - apply (dispatch_inv_finish C q _ i FAILED {["error" := PStr err]} now);
      try done; unfold exec; rewrite mark_task_failed_eq;
      fold (exec (update_task_status i FAILED {["error" := PStr err]} now)
                 (forget_running i q));
      rewrite exec_update_task_status; simpl.
    + apply max_concurrent_tasks_forget_running.
    + apply running_tasks_forget_running.
    + by rewrite tasks_forget_running.
  - destruct (tasks q !! i) as [t|] eqn:Ht.
    + apply (dispatch_inv_finish C q _ i CANCELLED ∅ now); try done.
      * unfold exec. rewrite (cancel_task_known _ _ _ _ Ht). simpl.
        apply max_concurrent_tasks_cancel_running.
      * unfold exec. rewrite (cancel_task_known _ _ _ _ Ht). simpl.
        apply running_tasks_cancel_running.
      * apply exec_cancel_task.
    + unfold exec. by rewrite (cancel_task_unknown _ _ _ Ht).
Qed.

Lemma dispatch_inv_run C es q : dispatch_inv C q -> dispatch_inv C (run q es).
Proof.
  revert q. induction es as [|e es IH]; intros q Hq; simpl; [done |].
  apply IH. by apply dispatch_inv_step.
Qed.

Lemma dispatch_inv_init C : dispatch_inv C (TaskQueue_configured C).
Proof.
  split_and!; simpl.
  - done.
  - rewrite map_size_empty. lia.
  - intros i t Hi. by rewrite lookup_empty in Hi.
Qed.

(** The tasks in status [RUNNING] are no more than the tracked ones. *)
Lemma count_running_le (l : list (string * Task)) (r : gmap string AsyncTask) :
  NoDup l.*1 ->
  (forall i t, (i, t) ∈ l -> status t = RUNNING -> is_Some (r !! i)) ->
  length (filter (fun t => status t = RUNNING) l.*2) <= size r.
Proof.
  revert r. induction l as [|[i t] l IH]; intros r Hnd Hin.
  - simpl. lia.
  - rewrite fmap_cons in Hnd. rewrite fmap_cons. apply NoDup_cons in Hnd as [Hi Hnd].
    rewrite filter_cons. cbn [snd fst] in Hi |- *. case_decide as Hs.
    + destruct (Hin i t) as [h Hh]; [left | done |].
      pose proof (map_size_delete_Some i r (mk_is_Some _ _ Hh)) as Hd.
      pose proof (map_size_ne_0_lookup_2 r i (mk_is_Some _ _ Hh)) as Hnz.
      enough (length (filter (fun t => status t = RUNNING) l.*2)
              <= size (delete i r)) by (cbn [length]; lia).
      apply IH; [done |].
      intros j t' Hj Hs'. rewrite lookup_delete_ne.
      * apply (Hin j t'); [by right | done].
      * intros ->. apply Hi. apply list_elem_of_fmap. by exists (j, t').
    + apply IH; [done |]. intros j t' Hj. apply Hin. by right.
Qed.

(** C3: under a ceiling [C >= 0], in every state the service reaches from
    its start, at most [C] tasks have the status [RUNNING] and at most [C]
    asyncio tasks are tracked as in flight; a pass of the dispatcher that
    pulls an id while [C] or more are in flight puts the id back at the end
    of the queue and changes nothing else; and the ceiling of a fresh
    [TaskQueue] is 3. *)
Theorem concurrency_ceiling (C : Z) (es : list event) :
  (0 <= C)%Z ->
  (Z.of_nat (count_status RUNNING (run (TaskQueue_configured C) es)) <= C)%Z
  /\ (Z.of_nat (size (running_tasks (run (TaskQueue_configured C) es))) <= C)%Z
  /\ (forall h now task_id rest,
        pending_queue (run (TaskQueue_configured C) es) = task_id :: rest ->
        task_id <> EmptyString ->
        (C <= Z.of_nat (size (running_tasks (run (TaskQueue_configured C) es))))%Z ->
        api_server.task_processor_iteration h now
          (run (TaskQueue_configured C) es)
        = (Returns tt,
           with_pending_queue (rest ++ [task_id])
             (run (TaskQueue_configured C) es)))
  /\ max_concurrent_tasks TaskQueue_init = 3%Z.
Proof.
  intros HC0.
  destruct (dispatch_inv_run C es _ (dispatch_inv_init C)) as (HC & Hsz & Hrun).
  assert (Hle : (Z.of_nat (size (running_tasks (run (TaskQueue_configured C) es)))
                 <= C)%Z) by lia.
  split_and!; [| done | | done].
  - unfold count_status.
    pose proof (count_running_le
                  (map_to_list (tasks (run (TaskQueue_configured C) es)))
                  (running_tasks (run (TaskQueue_configured C) es))
                  (NoDup_fst_map_to_list _)) as Hcount.
    etrans; [| exact Hle]. apply Nat2Z.inj_le.
    apply Hcount. intros i t Hi. apply Hrun. by apply elem_of_map_to_list.
  - intros h now task_id rest Hq Hne Hfull.
    rewrite task_processor_iteration_eq, Hq.
    apply String.eqb_neq in Hne. rewrite Hne, HC.
    by destruct (Z.leb_spec C
         (Z.of_nat (size (running_tasks (run (TaskQueue_configured C) es)))));
      [| lia].
Qed.

(** The theorem at the ceiling 1 with two tasks queued. *)
Lemma concurrency_ceiling_witness :
  (0 <= 1)%Z
  /\ (Z.of_nat (count_status RUNNING (run (TaskQueue_configured 1) two_tasks))
      <= 1)%Z.
Proof.
  split; [lia |].
  exact (proj1 (concurrency_ceiling 1 two_tasks ltac:(lia))).
Defined.

(** Under the ceiling 1 the second task stays in the queue. *)
Example second_task_waits :
  map (fun i => status_of i (run (TaskQueue_configured 1) two_tasks)) ["a"; "b"]
  = [Some RUNNING; Some PENDING]
  /\ pending_queue (run (TaskQueue_configured 1) two_tasks) = ["b"].
Proof. split; vm_compute; reflexivity. Qed.

(** ** The broadcaster *)

Lemma discard_subscriber_lookup_ne ws acc (k k' : string) s :
  k <> k' -> discard_subscriber ws acc (k', s) !! k = acc !! k.
Proof.
  intros Hne. unfold discard_subscriber. case_bool_decide.
  - by rewrite lookup_delete_ne.
  - by rewrite lookup_insert_ne.
Qed.

Lemma discard_subscriber_lookup_eq ws acc (k : string) s :
  discard_subscriber ws acc (k, s) !! k = pruned ws s.
Proof.
  unfold discard_subscriber, pruned. case_bool_decide.
  - by rewrite lookup_delete_eq.
  - by rewrite lookup_insert_eq.
Qed.

Lemma fold_discard_lookup_notin ws (l : list (string * gset WebSocket)) acc k :
  k ∉ l.*1 -> fold_left (discard_subscriber ws) l acc !! k = acc !! k.
Proof.
  revert acc. induction l as [|[k' s] l IH]; intros acc Hk; [done |].
  rewrite fmap_cons in Hk. apply not_elem_of_cons in Hk as [Hne Hk].
  cbn [fold_left]. rewrite (IH _ Hk).
  by apply discard_subscriber_lookup_ne.
Qed.

Lemma fold_discard_lookup_in ws (l : list (string * gset WebSocket)) acc k s :
  NoDup l.*1 -> (k, s) ∈ l ->
  fold_left (discard_subscriber ws) l acc !! k = pruned ws s.
Proof.
  revert acc. induction l as [|[k' s'] l IH]; intros acc Hnd Hin.
  - by apply elem_of_nil in Hin.
  - rewrite fmap_cons in Hnd. apply NoDup_cons in Hnd as [Hk' Hnd].
    cbn [fold_left]. apply elem_of_cons in Hin as [Heq|Hin].
    + injection Heq as <- <-.
      rewrite (fold_discard_lookup_notin _ _ _ _ Hk').
      apply discard_subscriber_lookup_eq.
    + by apply IH.
Qed.

Lemma disconnect_eq ws m :
  disconnect ws m
  = (Returns tt,
     mk_WebSocketManager
       (active_connections m ∖ {[ws]})
       (fold_left (discard_subscriber ws) (map_to_list (task_subscribers m))
                  (task_subscribers m))
       (wire m)).
Proof. reflexivity. Qed.

Lemma disconnect_lookup ws m k :
  task_subscribers (exec (disconnect ws) m) !! k
  = task_subscribers m !! k ≫= pruned ws.
Proof.
  unfold exec. rewrite disconnect_eq. simpl.
  destruct (task_subscribers m !! k) as [s|] eqn:Hk; simpl.
  - apply fold_discard_lookup_in; [apply NoDup_fst_map_to_list |].
    by apply elem_of_map_to_list.
  - rewrite fold_discard_lookup_notin; [done |].
    intros ((k' & s) & -> & Hin)%list_elem_of_fmap.
    apply elem_of_map_to_list in Hin. simpl in Hk. congruence.
Qed.

Lemma pruned_Some ws s s' :
  pruned ws s = Some s' -> s' = s ∖ {[ws]} /\ s' <> ∅.
Proof. unfold pruned. case_bool_decide; intros; by simplify_eq. Qed.

Lemma pruned_absent ws s : s <> ∅ -> ws ∉ s -> pruned ws s = Some s.
Proof.
  intros Hs Hws. assert (s ∖ {[ws]} = s) as Heq by set_solver.
  unfold pruned. rewrite Heq. by rewrite bool_decide_eq_false_2.
Qed.

(** When the connection is in no set and no set is empty, [disconnect]
    changes nothing. *)
Lemma disconnect_absent ws m :
  ws ∉ active_connections m ->
  (forall k s, task_subscribers m !! k = Some s -> s <> ∅ /\ ws ∉ s) ->
  disconnect ws m = (Returns tt, m).
Proof.
  intros Ha Hs. rewrite disconnect_eq. f_equal.
  destruct m as [active subs w]. simpl in *. f_equal.
  - set_solver.
  - apply map_eq. intros k.
    pose proof (disconnect_lookup ws (mk_WebSocketManager active subs w) k) as Hl.
    unfold exec in Hl. rewrite disconnect_eq in Hl. simpl in Hl. rewrite Hl.
    destruct (subs !! k) as [s|] eqn:Hk; [simpl | done].
    destruct (Hs k s Hk). by apply pruned_absent.
Qed.

Lemma ws_inv_disconnect ws m : ws_inv m -> ws_inv (exec (disconnect ws) m).
Proof.
  intros Hm k s' Hk. rewrite disconnect_lookup in Hk.
  destruct (task_subscribers m !! k) as [s|] eqn:Hs; [simpl in Hk | done].
  apply pruned_Some in Hk as [-> Hne]. split; [done |].
  destruct (Hm k s Hs) as [_ Hsub].
  unfold exec. rewrite disconnect_eq. simpl. set_solver.
Qed.

Lemma connect_eq ws task_id m :
  connect ws task_id true m
  = (Returns tt,
     match task_id with
     | Some tid =>
         if truthy task_id
         then mk_WebSocketManager
                ({[ws]} ∪ active_connections m)
                (<[tid := {[ws]} ∪ default ∅ (task_subscribers m !! tid)]>
                   (task_subscribers m))
                (wire m)
         else with_active_connections ({[ws]} ∪ active_connections m) m
     | None => with_active_connections ({[ws]} ∪ active_connections m) m
     end).
Proof.
  unfold connect. cbv [bind ret modify]. destruct task_id as [tid|]; [| done].
  destruct (truthy (Some tid)); [| done]. simpl. f_equal.
  case_bool_decide as Hd; simpl.
  - apply not_elem_of_dom in Hd. rewrite Hd. simpl.
    rewrite lookup_total_insert_eq. by rewrite insert_insert_eq.
  - by rewrite lookup_total_alt.
Qed.

Lemma connect_refused ws task_id m :
  exec (connect ws task_id false) m = m.
Proof. reflexivity. Qed.

Lemma ws_inv_connect ws task_id accepted m :
  ws_inv m -> ws_inv (exec (connect ws task_id accepted) m).
Proof.
  intros Hm. destruct accepted; [| by rewrite connect_refused].
  unfold exec. rewrite connect_eq. simpl.
  assert (Hact : ws_inv (with_active_connections
                           ({[ws]} ∪ active_connections m) m)).
  { intros k s Hk. destruct (Hm k s Hk). simpl. split; [done | set_solver]. }
  destruct task_id as [tid|]; [| done].
  destruct (truthy (Some tid)); [| done].
  intros k s Hk. simpl in *. destruct (decide (tid = k)) as [->|Hne].
  - rewrite lookup_insert_eq in Hk. injection Hk as <-. split; [set_solver |].
    destruct (task_subscribers m !! k) as [s0|] eqn:Hs0; simpl; [| set_solver].
    destruct (Hm k s0 Hs0). set_solver.
  - rewrite lookup_insert_ne in Hk by done.
    destruct (Hm k s Hk). split; [done | set_solver].
Qed.

Lemma send_loop_eq message broken receivers disconnected m :
  exists disconnected' w,
    send_loop message broken receivers disconnected m
    = (Returns disconnected', with_wire w m).
Proof.
  revert disconnected m.
  induction receivers as [|ws rest IH]; intros disconnected m; simpl.
  - exists disconnected, (wire m). by destruct m.
  - destruct (broken ws); [apply IH |].
    cbv [bind modify].
    destruct (IH disconnected (with_wire (wire m ++ [(ws, message)]) m))
      as (d' & w & ->).
    by exists d', w.
Qed.

Lemma ws_inv_with_wire w m : ws_inv m -> ws_inv (with_wire w m).
Proof. done. Qed.

Lemma disconnect_all_returns l m :
  outcome (disconnect_all l) m = Returns tt.
Proof.
  revert m. induction l as [|ws l IH]; intros m; [done |].
  unfold outcome in *. simpl. unfold bind. rewrite disconnect_eq. apply IH.
Qed.

Lemma ws_inv_disconnect_all l m :
  ws_inv m -> ws_inv (exec (disconnect_all l) m).
Proof.
  revert m. induction l as [|ws l IH]; intros m Hm; [done |].
  unfold exec in *. simpl. unfold bind. rewrite disconnect_eq.
  apply IH. by apply (ws_inv_disconnect ws m).
Qed.

Lemma ws_inv_mutate m x : ws_inv m -> ws_inv (mutate m x).
Proof.
  intros Hm. destruct x; simpl.
  - by apply ws_inv_connect.
  - by apply ws_inv_disconnect.
  - by apply ws_inv_with_wire.
Qed.

Lemma ws_inv_mutations l m : ws_inv m -> ws_inv (fold_left mutate l m).
Proof.
  revert m. induction l as [|x l IH]; intros m Hm; simpl; [done |].
  apply IH. by apply ws_inv_mutate.
Qed.

Lemma iterator_check_eq expected m :
  iterator_check expected m
  = (if Nat.eqb (size (active_connections m)) expected then Returns tt
     else Raises (RuntimeError "Set changed size during iteration"), m).
Proof.
  unfold iterator_check. cbv [bind gets].
  by destruct (Nat.eqb (size (active_connections m)) expected).
Qed.

Lemma send_one_eq message broken ws (disconnected : gset WebSocket) m :
  send_one message broken ws disconnected m
  = (Returns (if broken ws then {[ws]} ∪ disconnected else disconnected),
     if broken ws then m else with_wire (wire m ++ [(ws, message)]) m).
Proof. unfold send_one. by destruct (broken ws). Qed.

Lemma ws_inv_send_one (message : pydict) (broken : WebSocket -> bool)
    (ws : WebSocket) m :
  ws_inv m ->
  ws_inv (if broken ws then m else with_wire (wire m ++ [(ws, message)]) m).
Proof. intros Hm. by destruct (broken ws). Qed.

Lemma ws_inv_send_loop_quiet expected message broken receivers disconnected m :
  ws_inv m ->
  ws_inv (exec (send_loop_quiet expected message broken receivers disconnected)
               m).
Proof.
  revert disconnected m.
  induction receivers as [|ws rest IH]; intros disconnected m Hm;
    unfold exec in *; simpl; unfold bind at 1; rewrite iterator_check_eq;
    destruct (Nat.eqb (size (active_connections m)) expected); try done.
  unfold bind. rewrite send_one_eq. apply IH. by apply ws_inv_send_one.
Qed.

Lemma ws_inv_send_loop_live expected message broken during receivers
    disconnected m :
  ws_inv m ->
  ws_inv (exec (send_loop_live expected message broken during receivers
                  disconnected) m).
Proof.
  revert receivers disconnected m.
  induction during as [|i during IH]; intros receivers disconnected m Hm.
  { by apply ws_inv_send_loop_quiet. }
  unfold exec in *. simpl. unfold bind at 1. rewrite iterator_check_eq.
  destruct (Nat.eqb (size (active_connections m)) expected); [| done].
  destruct receivers as [|ws rest]; [done |].
  unfold bind at 1. rewrite send_one_eq. cbv [bind modify gets].
  apply IH. apply ws_inv_mutations. by apply ws_inv_send_one.
Qed.

Lemma ws_inv_send_to_all message now broken during m :
  ws_inv m -> ws_inv (exec (send_to_all message now broken during) m).
Proof.
  intros Hm. unfold exec, send_to_all. unfold bind at 1. unfold gets.
  case_bool_decide; [done |].
  pose proof (ws_inv_send_loop_live (size (active_connections m))
                (dict_set "timestamp" (PStr (isoformat now)) message)
                broken during (elements (active_connections m)) ∅ m Hm) as Hl.
  unfold exec in Hl. unfold bind.
  destruct (send_loop_live _ _ _ _ _ _ m) as [[d|e] m']; simpl in *; [| done].
  by apply ws_inv_disconnect_all.
Qed.

Lemma ws_inv_send_to_task_subscribers task_id message now broken m :
  ws_inv m ->
  ws_inv (exec (send_to_task_subscribers task_id message now broken) m).
Proof.
  intros Hm. unfold exec, send_to_task_subscribers. cbv [bind gets].
  destruct (task_subscribers m !! task_id) as [s|]; [| done].
  destruct (send_loop_eq
              (dict_set "timestamp" (PStr (isoformat now))
                 (dict_set "task_id" (PStr task_id) message))
              broken (elements s) ∅ m) as (d & w & ->).
  apply ws_inv_disconnect_all. by apply ws_inv_with_wire.
Qed.

Lemma ws_inv_step m c : ws_inv m -> ws_inv (ws_step m c).
Proof.
  intros Hm. destruct c; simpl.
  - by apply ws_inv_connect.
  - by apply ws_inv_disconnect.
  - by apply ws_inv_send_to_all.
  - by apply ws_inv_send_to_task_subscribers.
Qed.

Lemma ws_inv_run cs m : ws_inv m -> ws_inv (ws_run m cs).
Proof.
  revert m. induction cs as [|c cs IH]; intros m Hm; simpl; [done |].
  apply IH. by apply ws_inv_step.
Qed.

Lemma ws_inv_init : ws_inv WebSocketManager_init.
Proof. intros k s Hk. simpl in Hk. by rewrite lookup_empty in Hk. Qed.

(** C10: after any sequence of [connect], [disconnect], [send_to_all] and
    [send_to_task_subscribers] calls on a fresh manager, with any sends
    failing and with other coroutines doing anything to the manager while a
    [send_to_all] is suspended, every set that [task_subscribers] holds is
    non-empty and all its members are in [active_connections]. *)
Theorem subscribers_are_active (cs : list ws_call) (task_id : string)
    (subscribers : gset WebSocket) :
  task_subscribers (ws_run WebSocketManager_init cs) !! task_id
  = Some subscribers ->
  subscribers <> ∅
  /\ subscribers ⊆ active_connections (ws_run WebSocketManager_init cs).
Proof. apply (ws_inv_run cs _ ws_inv_init). Qed.

(** The theorem after a send has dropped the broken subscriber of ["a"]. *)
Lemma subscribers_are_active_witness :
  task_subscribers (ws_run WebSocketManager_init three_connections) !! "a"
  = Some {[2]}
  /\ ({[2]} : gset WebSocket) <> ∅
  /\ ({[2]} : gset WebSocket)
     ⊆ active_connections (ws_run WebSocketManager_init three_connections).
Proof.
  split; [vm_compute; reflexivity |].
  apply (subscribers_are_active three_connections "a" {[2]}).
  vm_compute; reflexivity.
Defined.

Lemma disconnect_twice ws m :
  disconnect ws (exec (disconnect ws) m) = (Returns tt, exec (disconnect ws) m).
Proof.
  apply disconnect_absent.
  - unfold exec. rewrite disconnect_eq. simpl. set_solver.
  - intros k s' Hk. rewrite disconnect_lookup in Hk.
    destruct (task_subscribers m !! k) as [s|]; [simpl in Hk | done].
    apply pruned_Some in Hk as [-> Hne]. split; [done | set_solver].
Qed.

(** C9: publishing with nobody to receive and unsubscribing a stranger are
    no-ops.  [send_to_all] on a manager with no active connection, and
    [send_to_task_subscribers] for a task id that [task_subscribers] does not
    hold, return normally and leave the manager, the wire included, as it
    was; so does [disconnect], in every state reached from a fresh manager,
    for a connection that is not active (never connected, or disconnected
    before); and in any state a second [disconnect] of the same connection
    changes nothing, and [disconnect] never raises. *)
Theorem broadcaster_no_ops (m : WebSocketManager) (cs : list ws_call)
    (ws : WebSocket) (task_id : string) (message : pydict) (now : datetime)
    (broken : WebSocket -> bool) (during : list interference) :
  (active_connections m = ∅ ->
   send_to_all message now broken during m = (Returns tt, m))
  /\ (task_subscribers m !! task_id = None ->
      send_to_task_subscribers task_id message now broken m = (Returns tt, m))
  /\ (ws ∉ active_connections (ws_run WebSocketManager_init cs) ->
      disconnect ws (ws_run WebSocketManager_init cs)
      = (Returns tt, ws_run WebSocketManager_init cs))
  /\ disconnect ws (exec (disconnect ws) m)
     = (Returns tt, exec (disconnect ws) m)
  /\ outcome (disconnect ws) m = Returns tt.
Proof.
  split_and!.
  - intros Ha. unfold send_to_all. cbv [bind gets].
    by rewrite bool_decide_eq_true_2.
  - intros Hs. unfold send_to_task_subscribers. cbv [bind gets].
    by rewrite Hs.
  - intros Ha. apply disconnect_absent; [done |].
    intros k s Hk.
    destruct (ws_inv_run cs _ ws_inv_init k s Hk) as [Hne Hsub].
    split; [done | set_solver].
  - apply disconnect_twice.
  - done.
Qed.

(** The theorem at a fresh manager, and at the stranger 7 after
    [three_connections]. *)
Lemma broadcaster_no_ops_witness :
  (active_connections WebSocketManager_init = ∅
   /\ send_to_all [("type", PStr "system")] t0 first_broken
        [mk_interference [MConnect 9 None] []] WebSocketManager_init
      = (Returns tt, WebSocketManager_init))
  /\ (task_subscribers WebSocketManager_init !! "a" = None
      /\ send_to_task_subscribers "a" [("type", PStr "system")] t0 first_broken
           WebSocketManager_init
         = (Returns tt, WebSocketManager_init))
  /\ ((7 ∉ active_connections (ws_run WebSocketManager_init three_connections))
      /\ disconnect 7 (ws_run WebSocketManager_init three_connections)
         = (Returns tt, ws_run WebSocketManager_init three_connections)).
Proof.
  pose proof (broadcaster_no_ops WebSocketManager_init three_connections 7 "a"
                [("type", PStr "system")] t0 first_broken
                [mk_interference [MConnect 9 None] []])
    as (H1 & H2 & H3 & _ & _).
  assert (Ha : active_connections WebSocketManager_init = ∅) by reflexivity.
  assert (Hs : task_subscribers WebSocketManager_init !! "a" = None)
    by reflexivity.
  assert (H7 : 7 ∉ active_connections
                     (ws_run WebSocketManager_init three_connections)).
  { apply (bool_decide_unpack _). vm_compute. exact I. }
  exact (conj (conj Ha (H1 Ha)) (conj (conj Hs (H2 Hs)) (conj H7 (H3 H7)))).
Defined.

(** ** The queue statistics *)

Lemma count_by_status_total (l : list Task) :
  length (filter (fun t => status t = PENDING) l)
  + (length (filter (fun t => status t = RUNNING) l)
     + (length (filter (fun t => status t = COMPLETED) l)
        + (length (filter (fun t => status t = FAILED) l)
           + (length (filter (fun t => status t = CANCELLED) l) + 0))))
  = length l.
Proof.
  induction l as [|t l IH]; [done |].
  rewrite !filter_cons.
  destruct (status t); repeat case_decide; try done; cbn [length]; lia.
Qed.

Lemma get_queue_stats_total (q : TaskQueue) :
  exists stats,
    get_queue_stats q = (Returns stats, q)
    /\ breakdown_total (qs_status_breakdown stats) = qs_total_tasks stats
    /\ qs_total_tasks stats = size (tasks q).
Proof.
  eexists. split; [reflexivity |]. simpl. split; [| done].
  unfold breakdown_total, count_status. simpl.
  rewrite count_by_status_total.
  by rewrite length_map, length_map_to_list.
Qed.

(** X1: The counts that [get_queue_stats] reports under ["status_breakdown"] add
    up to ["total_tasks"]; the other entries are the length of the pending
    queue, the number of tracked asyncio tasks and the ceiling; and the call
    changes nothing. *)
Theorem queue_stats_consistent (q : TaskQueue) :
  exists stats,
    get_queue_stats q = (Returns stats, q)
    /\ breakdown_total (qs_status_breakdown stats) = qs_total_tasks stats
    /\ map fst (qs_status_breakdown stats)
       = ["pending"; "running"; "completed"; "failed"; "cancelled"]
    /\ qs_total_tasks stats = size (tasks q)
    /\ qs_pending_queue_size stats = length (pending_queue q)
    /\ qs_running_tasks stats = size (running_tasks q)
    /\ qs_max_concurrent stats = max_concurrent_tasks q.
Proof.
  eexists. split; [reflexivity |]. simpl. split_and!; try done.
  unfold breakdown_total, count_status. simpl.
  rewrite count_by_status_total.
  by rewrite length_map, length_map_to_list.
Qed.

(** ** What the events keep *)

Lemma step_registered q e i :
  is_Some (tasks q !! i) -> is_Some (tasks (step q e) !! i).
Proof.
  intros [t Ht]. destruct (creates i e) eqn:Hc.
  - destruct (step_creates q e i Hc) as (now & cmd & kw & ->). eauto.
  - destruct (step_lookup q e i Hc) as (g & -> & _). rewrite Ht. simpl. eauto.
Qed.

Lemma task_update_identity g t : task_update g -> identity (g t) = identity t.
Proof. by destruct 1. Qed.

Lemma task_update_progress g t :
  task_update g -> exists l, progress (g t) = (progress t ++ l)%list.
Proof.
  destruct 1; simpl.
  - exists []. by rewrite app_nil_r.
  - exists []. by rewrite app_nil_r.
  - eauto.
Qed.

Lemma step_id q e i t' :
  (forall t, tasks q !! i = Some t -> id t = i) ->
  tasks (step q e) !! i = Some t' -> id t' = i.
Proof.
  intros Hq Ht'. destruct (creates i e) eqn:Hc.
  - destruct (step_creates q e i Hc) as (now & cmd & kw & Hn).
    rewrite Hn in Ht'. by injection Ht' as <-.
  - destruct (step_lookup q e i Hc) as (g & Hg & Hu).
    rewrite Hg in Ht'. destruct (tasks q !! i) as [t|] eqn:Ht; [| done].
    injection Ht' as <-.
    pose proof (task_update_identity g t Hu) as Hi.
    unfold identity in Hi. injection Hi as -> _ _. by apply Hq.
Qed.

Lemma step_scheduled q e i :
  i ∈ scheduled_puts (step q e) ->
  i ∈ scheduled_puts q \/ creates i e = true.
Proof.
  destruct e as [j now cmd kw| |h now|j s d now|j r now|j err now|j now];
    simpl.
  - unfold exec. simpl. intros [H| ->%list_elem_of_singleton]%elem_of_app;
      [by left | right; apply String.eqb_refl].
  - destruct (scheduled_puts q) as [|j rest] eqn:Hs; [by rewrite Hs; left |].
    unfold exec. simpl. intros H. left. by right.
  - unfold exec. rewrite task_processor_iteration_eq.
    destruct (pending_queue q) as [|j rest]; [by left |].
    destruct (String.eqb j EmptyString); [by left |].
    destruct (_ <=? _)%Z; [by left |].
    rewrite mark_task_running_eq.
    match goal with
    | |- context [(update_task_status ?a ?s ?k ?n ?x).2] =>
        change ((update_task_status a s k n x).2)
          with (exec (update_task_status a s k n) x)
    end.
    rewrite exec_update_task_status. by left.
  - rewrite exec_add_task_progress. by left.
  - unfold exec. rewrite mark_task_completed_eq.
    fold (exec (update_task_status j COMPLETED {["result" := r]} now)
               (forget_running j q)).
    rewrite exec_update_task_status. simpl. unfold forget_running.
    case_bool_decide; by left.
  - unfold exec. rewrite mark_task_failed_eq.
    fold (exec (update_task_status j FAILED {["error" := PStr err]} now)
               (forget_running j q)).
    rewrite exec_update_task_status. simpl. unfold forget_running.
    case_bool_decide; by left.
  - unfold exec. destruct (tasks q !! j) as [t|] eqn:Ht.
    + rewrite (cancel_task_known _ _ _ _ Ht). simpl. unfold cancel_running.
      destruct (running_tasks q !! j); by left.
    + rewrite (cancel_task_unknown _ _ _ Ht). by left.
Qed.

Lemma step_pending q e i :
  i ∈ pending_queue (step q e) ->
  i ∈ pending_queue q \/ i ∈ scheduled_puts q.
Proof.
  destruct e as [j now cmd kw| |h now|j s d now|j r now|j err now|j now];
    simpl.
  - by left.
  - destruct (scheduled_puts q) as [|j rest] eqn:Hs; [by left |].
    unfold exec. simpl.
    intros [H| ->%list_elem_of_singleton]%elem_of_app; [by left |].
    right. by left.
  - unfold exec. rewrite task_processor_iteration_eq.
    destruct (pending_queue q) as [|j rest] eqn:Hq;
      [simpl; rewrite Hq; by left |].
    destruct (String.eqb j EmptyString).
    { cbn. intros H. left. apply elem_of_cons. by right. }
    destruct (_ <=? _)%Z.
    + cbn. intros [H| ->%list_elem_of_singleton]%elem_of_app; left;
        apply elem_of_cons; [by right | by left].
    + rewrite mark_task_running_eq.
      match goal with
      | |- context [(update_task_status ?a ?s ?k ?n ?x).2] =>
          change ((update_task_status a s k n x).2)
            with (exec (update_task_status a s k n) x)
      end.
      rewrite exec_update_task_status. cbn. intros H. left.
      apply elem_of_cons. by right.
  - rewrite exec_add_task_progress. by left.
  - unfold exec. rewrite mark_task_completed_eq.
    fold (exec (update_task_status j COMPLETED {["result" := r]} now)
               (forget_running j q)).
    rewrite exec_update_task_status. simpl. unfold forget_running.
    case_bool_decide; by left.
  - unfold exec. rewrite mark_task_failed_eq.
    fold (exec (update_task_status j FAILED {["error" := PStr err]} now)
               (forget_running j q)).
    rewrite exec_update_task_status. simpl. unfold forget_running.
    case_bool_decide; by left.
  - unfold exec. destruct (tasks q !! j) as [t|] eqn:Ht.
    + rewrite (cancel_task_known _ _ _ _ Ht). simpl. unfold cancel_running.
      destruct (running_tasks q !! j); by left.
    + rewrite (cancel_task_unknown _ _ _ Ht). by left.
Qed.

Lemma step_running q e i :
  is_Some (running_tasks (step q e) !! i) ->
  is_Some (running_tasks q !! i) \/ i ∈ pending_queue q.
Proof.
  destruct e as [j now cmd kw| |h now|j s d now|j r now|j err now|j now];
    simpl.
  - by left.
  - destruct (scheduled_puts q); by left.
  - unfold exec. rewrite task_processor_iteration_eq.
    destruct (pending_queue q) as [|j rest] eqn:Hq; [by left |].
    destruct (String.eqb j EmptyString); [by left |].
    destruct (_ <=? _)%Z; [by left |].
    rewrite mark_task_running_eq.
    match goal with
    | |- context [(update_task_status ?a ?s ?k ?n ?x).2] =>
        change ((update_task_status a s k n x).2)
          with (exec (update_task_status a s k n) x)
    end.
    rewrite exec_update_task_status. cbn.
    destruct (decide (j = i)) as [->|Hne].
    + intros _. right. by left.
    + rewrite lookup_insert_ne by done. by left.
  - rewrite exec_add_task_progress. by left.
  - unfold exec. rewrite mark_task_completed_eq.
    fold (exec (update_task_status j COMPLETED {["result" := r]} now)
               (forget_running j q)).
    rewrite exec_update_task_status. cbn.
    rewrite running_tasks_forget_running.
    intros [h [_ Hh]%lookup_delete_Some]. left. eauto.
  - unfold exec. rewrite mark_task_failed_eq.
    fold (exec (update_task_status j FAILED {["error" := PStr err]} now)
               (forget_running j q)).
    rewrite exec_update_task_status. cbn.
    rewrite running_tasks_forget_running.
    intros [h [_ Hh]%lookup_delete_Some]. left. eauto.
  - unfold exec. destruct (tasks q !! j) as [t|] eqn:Ht.
    + rewrite (cancel_task_known _ _ _ _ Ht). cbn.
      rewrite running_tasks_cancel_running.
      intros [h [_ Hh]%lookup_delete_Some]. left. eauto.
    + rewrite (cancel_task_unknown _ _ _ Ht). by left.
Qed.

Lemma known_ids_step q e : known_ids q -> known_ids (step q e).
Proof.
  intros (Hs & Hp & Hr & Hi). split_and!.
  - intros i [H|H]%step_scheduled.
    + by apply step_registered, Hs.
    + destruct (step_creates q e i H) as (now & cmd & kw & ->). eauto.
  - intros i [H|H]%step_pending; apply step_registered; auto.
  - intros i [H|H]%step_running; apply step_registered; auto.
  - intros i t'. apply step_id. apply Hi.
Qed.

Lemma known_ids_run es q : known_ids q -> known_ids (run q es).
Proof.
  revert q. induction es as [|e es IH]; intros q Hq; simpl; [done |].
  apply IH. by apply known_ids_step.
Qed.

Lemma known_ids_init C : known_ids (TaskQueue_configured C).
Proof.
  split_and!; simpl.
  - intros i H. by apply elem_of_nil in H.
  - intros i H. by apply elem_of_nil in H.
  - intros i [h H]. by rewrite lookup_empty in H.
  - intros i t H. by rewrite lookup_empty in H.
Qed.

(** X2: In every state the service reaches, each id that waits for its
    [pending_queue.put], each id in the pending queue and each id tracked in
    [running_tasks] names a task of the registry, and every task is stored
    under its own [id]: the dispatcher never pulls an id that [get_task]
    would not find. *)
Theorem queued_ids_are_registered (C : Z) (es : list event) :
  known_ids (run (TaskQueue_configured C) es).
Proof. apply known_ids_run, known_ids_init. Qed.

(** X3: The registry only grows: no event removes a task, so the number of
    tasks never goes down and an id that was found once is found ever
    after. *)
Theorem registry_only_grows (q : TaskQueue) (es : list event) (i : string) :
  is_Some (tasks q !! i) -> is_Some (tasks (run q es) !! i).
Proof.
  revert q. induction es as [|e es IH]; intros q Hq; simpl; [done |].
  apply IH. by apply step_registered.
Qed.

(** The theorem at the task ["a"] of [q_pending], after a cancel request
    and a pass of the dispatcher. *)
Lemma registry_only_grows_witness :
  is_Some (tasks q_pending !! "a")
  /\ is_Some (tasks (run q_pending [EvCancel "a" t1; EvDispatch 1 t2]) !! "a").
Proof.
  assert (H : is_Some (tasks q_pending !! "a")) by (vm_compute; eauto).
  exact (conj H (registry_only_grows q_pending
                   [EvCancel "a" t1; EvDispatch 1 t2] "a" H)).
Defined.

(** Over events that do not create the task anew, a relation that the
    registry's updates respect holds between a task and what it becomes. *)
Lemma run_related (R : Task -> Task -> Prop) es q i t :
  (forall t, R t t) ->
  (forall a b c, R a b -> R b c -> R a c) ->
  (forall g t, task_update g -> R t (g t)) ->
  tasks q !! i = Some t ->
  forallb (fun e => negb (creates i e)) es = true ->
  exists t', tasks (run q es) !! i = Some t' /\ R t t'.
Proof.
  intros Hrefl Htrans Hupd. revert q t.
  induction es as [|e es IH]; intros q t Ht Hes; simpl in *.
  - eauto.
  - apply andb_true_iff in Hes as [He Hes]. apply negb_true_iff in He.
    destruct (step_lookup q e i He) as (g & Hg & Hu).
    rewrite Ht in Hg. simpl in Hg.
    destruct (IH _ _ Hg Hes) as (t' & Ht' & HR).
    exists t'. split; [done |]. eapply Htrans; [by apply Hupd | done].
Qed.

(** X4: The progress of a task is append-only: over any events that do not
    create the task anew, what the task's progress list held stays, in
    order, at the front of what it holds afterwards. *)
Theorem progress_append_only (q : TaskQueue) (es : list event) (i : string)
    (t : Task) :
  tasks q !! i = Some t ->
  forallb (fun e => negb (creates i e)) es = true ->
  exists t' later,
    tasks (run q es) !! i = Some t'
    /\ progress t' = (progress t ++ later)%list.
Proof.
  intros Ht Hes.
  destruct (run_related
              (fun a b => exists l, progress b = (progress a ++ l)%list)
              es q i t) as (t' & Ht' & l & Hl); try done.
  - intros a. exists []. by rewrite app_nil_r.
  - intros a b c [l1 H1] [l2 H2]. exists (l1 ++ l2)%list.
    by rewrite H2, H1, app_assoc.
  - intros g a Hg. by apply task_update_progress.
  - eauto.
Qed.

(** The theorem at the completed task of [q_completed], which then gets a
    late progress entry and a cancel request. *)
Lemma progress_append_only_witness :
  forallb (fun e => negb (creates "a" e))
          [EvProgress "a" "late" None t3; EvCancel "a" t3] = true
  /\ exists t' later,
       tasks (run q_completed [EvProgress "a" "late" None t3; EvCancel "a" t3])
         !! "a" = Some t'
       /\ progress t'
          = ([PDict [("timestamp", PStr (isoformat t1));
                     ("step", PStr "Starting execution");
                     ("details", PDict [])]] ++ later)%list.
Proof.
  split; [reflexivity |].
  apply (progress_append_only q_completed
           [EvProgress "a" "late" None t3; EvCancel "a" t3] "a"
           (mk_Task "a" "open example.org" COMPLETED t0 (Some t1) (Some t2)
              (PDict [("success", PBool true)]) PNone
              [PDict [("timestamp", PStr (isoformat t1));
                      ("step", PStr "Starting execution");
                      ("details", PDict [])]]
              "mac_studio" "llama4:scout" "anti_bot"));
    vm_compute; reflexivity.
Defined.

(** X5: The id, the command and the creation time of a task are never written
    after the creation: over any events that do not create the task anew
    they stay as they were. *)
Theorem identity_fixed (q : TaskQueue) (es : list event) (i : string)
    (t : Task) :
  tasks q !! i = Some t ->
  forallb (fun e => negb (creates i e)) es = true ->
  exists t',
    tasks (run q es) !! i = Some t'
    /\ id t' = id t /\ command t' = command t /\ created_at t' = created_at t.
Proof.
  intros Ht Hes.
  destruct (run_related (fun a b => identity b = identity a) es q i t)
    as (t' & Ht' & Hi); try done.
  - intros a b c H1 H2. by rewrite H2.
  - intros g a Hg. by apply task_update_identity.
  - exists t'. unfold identity in Hi. injection Hi as -> -> ->. done.
Qed.

(** The theorem at the waiting task of [q_pending], which is admitted and
    then fails. *)
Lemma identity_fixed_witness :
  forallb (fun e => negb (creates "a" e))
          [EvDispatch 1 t1; EvFailed "a" "boom" t2] = true
  /\ exists t',
       tasks (run q_pending [EvDispatch 1 t1; EvFailed "a" "boom" t2]) !! "a"
       = Some t'
       /\ id t' = "a" /\ command t' = "open example.org" /\ created_at t' = t0.
Proof.
  split; [reflexivity |].
  apply (identity_fixed q_pending [EvDispatch 1 t1; EvFailed "a" "boom" t2]
           "a"
           (mk_Task "a" "open example.org" PENDING t0 None None PNone PNone []
                    "gemini" "llama4:scout" "anti_bot"));
    vm_compute; reflexivity.
Defined.

(** X7: The status query answers with the id it was asked for: in every state
    the service reaches, the ["id"] entry of the answer for a registered id
    is that id. *)
Theorem status_query_echoes_id (C : Z) (es : list event) (i : string) :
  is_Some (tasks (run (TaskQueue_configured C) es) !! i) ->
  status_field "id" i (run (TaskQueue_configured C) es) = Some (PStr i).
Proof.
  intros [t Ht].
  destruct (known_ids_run es _ (known_ids_init C)) as (_ & _ & _ & Hid).
  unfold status_field, outcome, get_task_status, bind, get_task, gets.
  simpl. rewrite Ht. simpl. by rewrite (Hid i t Ht).
Qed.

(** The theorem at the task ["b"] of [two_tasks]. *)
Lemma status_query_echoes_id_witness :
  is_Some (tasks (run (TaskQueue_configured 1) two_tasks) !! "b")
  /\ status_field "id" "b" (run (TaskQueue_configured 1) two_tasks)
     = Some (PStr "b").
Proof.
  assert (H : is_Some (tasks (run (TaskQueue_configured 1) two_tasks) !! "b"))
    by (vm_compute; eauto).
  exact (conj H (status_query_echoes_id 1 two_tasks "b" H)).
Defined.

(** ** Admission *)

(** X8: Below the ceiling, a pass of the dispatcher admits the head of the
    pending queue, whatever the status of that task: the task becomes
    [RUNNING], its start time is set unless it has one, the asyncio task is
    tracked under the id, the rest of the queue stays in order, and nothing
    else changes. *)
Theorem dispatcher_admits_head (q : TaskQueue) (h : AsyncTask)
    (now : datetime) (i : string) (rest : list string) (t : Task) :
  pending_queue q = i :: rest ->
  i <> EmptyString ->
  tasks q !! i = Some t ->
  (Z.of_nat (size (running_tasks q)) < max_concurrent_tasks q)%Z ->
  api_server.task_processor_iteration h now q
  = (Returns tt,
     mk_TaskQueue
       (<[i := with_started_at (Some (default now (started_at t)))
                 (with_status RUNNING t)]> (tasks q))
       rest (max_concurrent_tasks q) (<[i := h]> (running_tasks q))
       (scheduled_puts q) (cancel_requests q)).
Proof.
  intros Hq Hne Ht Hfree. rewrite task_processor_iteration_eq, Hq.
  apply String.eqb_neq in Hne. rewrite Hne.
  destruct (Z.leb_spec (max_concurrent_tasks q)
                       (Z.of_nat (size (running_tasks q)))); [lia |].
  rewrite mark_task_running_eq.
  rewrite (update_task_status_known _ _ _ _ _ t) by done.
  unfold with_tasks, updated_task. simpl. do 3 f_equal.
  rewrite !lookup_empty. simpl. by destruct t as [? ? ? ? [?|] ? ? ? ? ? ? ?].
Qed.

(** The theorem at the waiting task of [q_pending]. *)
Lemma dispatcher_admits_head_witness :
  pending_queue q_pending = ["a"]
  /\ api_server.task_processor_iteration 1 t1 q_pending
     = (Returns tt,
        mk_TaskQueue
          (<["a" := mk_Task "a" "open example.org" RUNNING t0 (Some t1) None
                      PNone PNone [] "gemini" "llama4:scout" "anti_bot"]>
             (tasks q_pending))
          [] (max_concurrent_tasks q_pending)
          (<["a" := 1]> (running_tasks q_pending))
          (scheduled_puts q_pending) (cancel_requests q_pending)).
Proof.
  split; [reflexivity |].
  apply (dispatcher_admits_head q_pending 1 t1 "a" []
           (mk_Task "a" "open example.org" PENDING t0 None None PNone PNone []
                    "gemini" "llama4:scout" "anti_bot")).
  - reflexivity.
  - discriminate.
  - vm_compute; reflexivity.
  - vm_compute; reflexivity.
Defined.

(** ** Terminal reports *)

(** X10: What the worker reports is what the status query shows: after
    [mark_task_failed] the answer for the task has the status "failed", the
    error text as given and the time of the report as completion time;
    after [mark_task_completed] it has the status "completed", the same
    completion time, and ["has_result"] tells whether the payload is not
    [None]. *)
Theorem terminal_report_in_status (q : TaskQueue) (i : string) (t : Task)
    (now : datetime) (err : string) (res : pyvalue) :
  tasks q !! i = Some t ->
  (status_field "status" i (exec (mark_task_failed i err now) q)
   = Some (PStr "failed")
   /\ status_field "error" i (exec (mark_task_failed i err now) q)
      = Some (PStr err)
   /\ status_field "completed_at" i (exec (mark_task_failed i err now) q)
      = Some (PStr (isoformat now)))
  /\ (status_field "status" i (exec (mark_task_completed i res now) q)
      = Some (PStr "completed")
      /\ status_field "has_result" i (exec (mark_task_completed i res now) q)
         = Some (PBool (is_not_None res))
      /\ status_field "completed_at" i (exec (mark_task_completed i res now) q)
         = Some (PStr (isoformat now))
      /\ status_field "error" i (exec (mark_task_completed i res now) q)
         = Some (error t)).
Proof.
  intros Ht.
  assert (Hk : tasks (forget_running i q) !! i = Some t)
    by by rewrite tasks_forget_running.
  split.
  - unfold exec. rewrite mark_task_failed_eq.
    rewrite (update_task_status_known _ _ _ _ _ _ Hk).
    unfold status_field, outcome, get_task_status, bind, get_task, gets.
    simpl. rewrite lookup_insert_eq. simpl.
    by rewrite lookup_singleton_eq.
  - unfold exec. rewrite mark_task_completed_eq.
    rewrite (update_task_status_known _ _ _ _ _ _ Hk).
    unfold status_field, outcome, get_task_status, bind, get_task, gets.
    simpl. rewrite lookup_insert_eq. simpl.
    rewrite lookup_singleton_eq. simpl.
    by rewrite lookup_singleton_ne.
Qed.

(** The theorem at the waiting task of [q_pending]. *)
Lemma terminal_report_in_status_witness :
  status_field "error" "a" (exec (mark_task_failed "a" "boom" t2) q_pending)
  = Some (PStr "boom")
  /\ status_field "has_result" "a"
       (exec (mark_task_completed "a" PNone t2) q_pending)
     = Some (PBool false).
Proof.
  pose proof (terminal_report_in_status q_pending "a"
                (mk_Task "a" "open example.org" PENDING t0 None None PNone
                         PNone [] "gemini" "llama4:scout" "anti_bot")
                t2 "boom" PNone eq_refl) as [(_ & H1 & _) (_ & H2 & _)].
  exact (conj H1 H2).
Defined.

(** X11: A task that ends is tracked no more: [mark_task_completed] and
    [mark_task_failed] take the id out of [running_tasks], whether or not
    it was there, and signal no asyncio task; [cancel_task], for an id the
    registry knows, takes it out too and calls [cancel()] on the asyncio
    task that was tracked under it, if one was; for an unknown id it
    changes nothing. *)
Theorem ended_task_untracked (q : TaskQueue) (i : string) (now : datetime)
    (err : string) (res : pyvalue) :
  (running_tasks (exec (mark_task_completed i res now) q)
   = delete i (running_tasks q)
   /\ cancel_requests (exec (mark_task_completed i res now) q)
      = cancel_requests q)
  /\ (running_tasks (exec (mark_task_failed i err now) q)
      = delete i (running_tasks q)
      /\ cancel_requests (exec (mark_task_failed i err now) q)
         = cancel_requests q)
  /\ match tasks q !! i with
     | Some _ =>
         running_tasks (exec (cancel_task i now) q) = delete i (running_tasks q)
         /\ cancel_requests (exec (cancel_task i now) q)
            = (cancel_requests q
               ++ match running_tasks q !! i with
                  | Some running_task => [running_task]
                  | None => []
                  end)%list
     | None => exec (cancel_task i now) q = q
     end.
Proof.
  split_and!.
  - unfold exec. rewrite mark_task_completed_eq.
    fold (exec (update_task_status i COMPLETED {["result" := res]} now)
               (forget_running i q)).
    rewrite exec_update_task_status. simpl.
    apply running_tasks_forget_running.
  - unfold exec. rewrite mark_task_completed_eq.
    fold (exec (update_task_status i COMPLETED {["result" := res]} now)
               (forget_running i q)).
    rewrite exec_update_task_status. simpl.
    unfold forget_running. by case_bool_decide.
  - unfold exec. rewrite mark_task_failed_eq.
    fold (exec (update_task_status i FAILED {["error" := PStr err]} now)
               (forget_running i q)).
    rewrite exec_update_task_status. simpl.
    apply running_tasks_forget_running.
  - unfold exec. rewrite mark_task_failed_eq.
    fold (exec (update_task_status i FAILED {["error" := PStr err]} now)
               (forget_running i q)).
    rewrite exec_update_task_status. simpl.
    unfold forget_running. by case_bool_decide.
  - destruct (tasks q !! i) as [t|] eqn:Ht.
    + unfold exec. rewrite (cancel_task_known _ _ _ _ Ht). simpl. split.
      * apply running_tasks_cancel_running.
      * unfold cancel_running.
        destruct (running_tasks q !! i); simpl; [done |].
        by rewrite app_nil_r.
    + unfold exec. by rewrite (cancel_task_unknown _ _ _ Ht).
Qed.

(** ** The task listing *)

Lemma lex_ltb_asym (a b : list nat) : lex_ltb a b = true -> lex_ltb b a = false.
Proof.
  revert b. induction a as [|x a IH]; intros [|y b]; simpl; try done.
  destruct (Nat.ltb_spec x y), (Nat.ltb_spec y x); try done; try lia.
  apply IH.
Qed.

Lemma lex_ltb_ge_trans (a b c : list nat) :
  length a = length b -> length b = length c ->
  lex_ltb a b = false -> lex_ltb b c = false -> lex_ltb a c = false.
Proof.
  revert b c. induction a as [|x a IH]; intros [|y b] [|z c]; simpl;
    try done.
  intros Hab Hbc.
  destruct (Nat.ltb_spec x y), (Nat.ltb_spec y x), (Nat.ltb_spec y z),
    (Nat.ltb_spec z y), (Nat.ltb_spec x z), (Nat.ltb_spec z x);
    try done; try lia.
  apply IH; lia.
Qed.

(** [a] is not older than [b]. *)
Lemma not_older_trans (a b c : Task) :
  datetime_ltb (created_at a) (created_at b) = false ->
  datetime_ltb (created_at b) (created_at c) = false ->
  datetime_ltb (created_at a) (created_at c) = false.
Proof. by apply lex_ltb_ge_trans. Qed.

Lemma insert_by_created_at_perm t l : insert_by_created_at t l ≡ₚ t :: l.
Proof.
  induction l as [|u l IH]; simpl; [done |].
  destruct (datetime_ltb _ _); [| done].
  rewrite IH. apply Permutation_swap.
Qed.

Lemma sorted_by_created_at_perm l : sorted_by_created_at l ≡ₚ l.
Proof.
  induction l as [|t l IH]; simpl; [done |].
  by rewrite insert_by_created_at_perm, IH.
Qed.

Lemma insert_by_created_at_sorted t l :
  StronglySorted
    (fun a b => datetime_ltb (created_at a) (created_at b) = false) l ->
  StronglySorted
    (fun a b => datetime_ltb (created_at a) (created_at b) = false)
    (insert_by_created_at t l).
Proof.
  induction l as [|u l IH]; intros Hs; simpl.
  - repeat constructor.
  - apply StronglySorted_inv in Hs as [Hl Hu].
    destruct (datetime_ltb (created_at t) (created_at u)) eqn:Htu.
    + constructor; [by apply IH |].
      rewrite insert_by_created_at_perm. constructor; [| done].
      by apply lex_ltb_asym.
    + constructor; [by constructor |]. constructor; [done |].
      eapply Forall_impl; [exact Hu |]. intros x Hx.
      by apply not_older_trans with u.
Qed.

Lemma sorted_by_created_at_sorted l :
  StronglySorted
    (fun a b => datetime_ltb (created_at a) (created_at b) = false)
    (sorted_by_created_at l).
Proof.
  induction l as [|t l IH]; simpl; [constructor |].
  by apply insert_by_created_at_sorted.
Qed.

Lemma slice_to_prefix {A} (limit : Z) (l : list A) :
  exists dropped,
    l = (slice_to limit l ++ dropped)%list
    /\ length (slice_to limit l)
       = if (0 <=? limit)%Z then Nat.min (Z.to_nat limit) (length l)
         else length l - Z.to_nat (- limit).
Proof.
  unfold slice_to. destruct (0 <=? limit)%Z.
  - exists (drop (Z.to_nat limit) l). split; [by rewrite take_drop |].
    apply length_take.
  - exists (drop (length l - Z.to_nat (- limit)) l).
    split; [by rewrite take_drop |]. rewrite length_take. lia.
Qed.

Lemma all_tasks_of_spec (values : list Task) (limit : Z) :
  exists kept dropped,
    all_tasks_of values limit = map to_dict kept
    /\ (kept ++ dropped)%list ≡ₚ values
    /\ StronglySorted
         (fun a b => datetime_ltb (created_at a) (created_at b) = false)
         (kept ++ dropped)%list
    /\ length kept
       = if (0 <=? limit)%Z then Nat.min (Z.to_nat limit) (length values)
         else length values - Z.to_nat (- limit).
Proof.
  destruct (slice_to_prefix limit (sorted_by_created_at values))
    as (dropped & Heq & Hlen).
  exists (slice_to limit (sorted_by_created_at values)), dropped.
  split_and!.
  - done.
  - rewrite <- Heq. apply sorted_by_created_at_perm.
  - rewrite <- Heq. apply sorted_by_created_at_sorted.
  - rewrite Hlen. by rewrite (Permutation_length (sorted_by_created_at_perm values)).
Qed.

Lemma get_all_tasks_length (q : TaskQueue) (limit : Z) :
  exists listed,
    get_all_tasks limit q = (Returns listed, q)
    /\ length listed
       = if (0 <=? limit)%Z then Nat.min (Z.to_nat limit) (size (tasks q))
         else size (tasks q) - Z.to_nat (- limit).
Proof.
  destruct (all_tasks_of_spec (map snd (map_to_list (tasks q))) limit)
    as (kept & dropped & Heq & _ & _ & Hlen).
  eexists. split; [reflexivity |].
  rewrite Heq, length_map, Hlen. by rewrite length_map, length_map_to_list.
Qed.

(** X13: [get_all_tasks] lists the most recent tasks first and changes nothing:
    the answer is the [to_dict] of a list [kept] such that [kept] followed
    by some [dropped] is a rearrangement of the tasks of the registry in
    which no task is older than a later one; for a limit that is not
    negative [kept] has [min limit total] entries, and for a negative limit
    it is short of the total by that many. *)
Theorem get_all_tasks_most_recent_first (q : TaskQueue) (limit : Z) :
  exec (get_all_tasks limit) q = q
  /\ exists kept dropped,
       outcome (get_all_tasks limit) q = Returns (map to_dict kept)
       /\ (kept ++ dropped)%list ≡ₚ map snd (map_to_list (tasks q))
       /\ StronglySorted
            (fun a b => datetime_ltb (created_at a) (created_at b) = false)
            (kept ++ dropped)%list
       /\ length kept
          = if (0 <=? limit)%Z then Nat.min (Z.to_nat limit) (size (tasks q))
            else size (tasks q) - Z.to_nat (- limit).
Proof.
  split; [done |].
  destruct (all_tasks_of_spec (map snd (map_to_list (tasks q))) limit)
    as (kept & dropped & Heq & Hperm & Hsorted & Hlen).
  exists kept, dropped. split_and!; try done.
  - unfold outcome, get_all_tasks, gets. simpl. by rewrite Heq.
  - rewrite Hlen. by rewrite length_map, length_map_to_list.
Qed.

(** Three tasks, the second created last, listed with limit 2. *)
Example listing_of_three :
  map (dict_get "id")
      (all_tasks_of
         [mk_Task "x" "one" PENDING t0 None None PNone PNone [] "p" "m" "b";
          mk_Task "y" "two" PENDING t3 None None PNone PNone [] "p" "m" "b";
          mk_Task "z" "three" PENDING t1 None None PNone PNone [] "p" "m" "b"]
         2)
  = [Some (PStr "y"); Some (PStr "z")].
Proof. vm_compute; reflexivity. Qed.

(** ** Connecting and disconnecting *)

(** X14: [disconnect] removes the connection everywhere and touches nobody
    else: afterwards the connection is not active and in no subscriber set,
    no set is left empty, every other connection is active and subscribed
    exactly where it was, and nothing is sent. *)
Theorem disconnect_removes_everywhere (m : WebSocketManager)
    (ws other : WebSocket) (k : string) :
  (ws ∉ active_connections (exec (disconnect ws) m))
  /\ match task_subscribers (exec (disconnect ws) m) !! k with
     | Some s' =>
         (ws ∉ s') /\ s' <> ∅
         /\ exists s, task_subscribers m !! k = Some s /\ s' = s ∖ {[ws]}
     | None =>
         match task_subscribers m !! k with
         | Some s => s ⊆ {[ws]}
         | None => True
         end
     end
  /\ (other <> ws ->
      (other ∈ active_connections (exec (disconnect ws) m)
       <-> other ∈ active_connections m)
      /\ ((exists s', task_subscribers (exec (disconnect ws) m) !! k = Some s'
                      /\ other ∈ s')
          <-> (exists s, task_subscribers m !! k = Some s /\ other ∈ s)))
  /\ wire (exec (disconnect ws) m) = wire m.
Proof.
  split_and!.
  - unfold exec. rewrite disconnect_eq. simpl. set_solver.
  - rewrite disconnect_lookup.
    destruct (task_subscribers m !! k) as [s|] eqn:Hs; simpl; [| done].
    unfold pruned. case_bool_decide as He.
    + clear Hs. apply elem_of_subseteq. intros x Hx.
      destruct (decide (x = ws)) as [->|Hn]; [set_solver |].
      assert (x ∈ s ∖ {[ws]}) by set_solver. set_solver.
    + split_and!; [clear Hs; set_solver | done | eauto].
  - intros Hne. split.
    + unfold exec. rewrite disconnect_eq. simpl. set_solver.
    + rewrite disconnect_lookup.
      destruct (task_subscribers m !! k) as [s|] eqn:Hs; simpl.
      * unfold pruned. case_bool_decide as He.
        -- split; [by intros (s' & ? & _) |].
           intros (s0 & [= <-] & Hin). set_solver.
        -- split.
           ++ intros (s' & [= <-] & Hin). exists s. set_solver.
           ++ intros (s0 & [= <-] & Hin). eexists. split; [done |].
              set_solver.
      * split; by intros (? & ? & _).
  - done.
Qed.

(** The theorem at connection 2 leaving after [three_connections], seen
    from connection 3. *)
Lemma disconnect_removes_everywhere_witness :
  (2 ∉ active_connections
         (exec (disconnect 2) (ws_run WebSocketManager_init three_connections)))
  /\ task_subscribers
       (exec (disconnect 2) (ws_run WebSocketManager_init three_connections))
       !! "a" = None
  /\ (3 ∈ active_connections
            (exec (disconnect 2)
                  (ws_run WebSocketManager_init three_connections))
      <-> 3 ∈ active_connections
                (ws_run WebSocketManager_init three_connections)).
Proof.
  pose proof (disconnect_removes_everywhere
                (ws_run WebSocketManager_init three_connections) 2 3 "a")
    as (H1 & _ & H3 & _).
  split; [exact H1 |]. split; [vm_compute; reflexivity |].
  apply H3. discriminate.
Defined.

(** X15: An accepted [connect] adds and never removes: the connection is active
    afterwards and, when a non-empty task id came with it, subscribed to
    that task; every connection that was active or subscribed somewhere
    still is; without a task id, or with the empty one, the subscriptions
    stay as they were; nothing is sent.  A refused one raises and changes
    nothing. *)
Theorem connect_adds (m : WebSocketManager) (ws : WebSocket)
    (task_id : option string) :
  outcome (connect ws task_id true) m = Returns tt
  /\ ws ∈ active_connections (exec (connect ws task_id true) m)
  /\ active_connections m ⊆ active_connections (exec (connect ws task_id true) m)
  /\ (forall k s,
        task_subscribers m !! k = Some s ->
        exists s', task_subscribers (exec (connect ws task_id true) m) !! k
                   = Some s' /\ s ⊆ s')
  /\ match task_id with
     | Some tid =>
         if String.eqb tid EmptyString
         then task_subscribers (exec (connect ws task_id true) m)
              = task_subscribers m
         else exists s', task_subscribers (exec (connect ws task_id true) m)
                           !! tid = Some s' /\ ws ∈ s'
     | None =>
         task_subscribers (exec (connect ws task_id true) m)
         = task_subscribers m
     end
  /\ wire (exec (connect ws task_id true) m) = wire m
  /\ (exists e, outcome (connect ws task_id false) m = Raises e)
  /\ exec (connect ws task_id false) m = m.
Proof.
  unfold outcome, exec. rewrite connect_eq. simpl.
  split_and!; try done.
  - destruct task_id as [tid|]; [| simpl; set_solver].
    destruct (truthy (Some tid)); simpl; set_solver.
  - destruct task_id as [tid|]; [| simpl; set_solver].
    destruct (truthy (Some tid)); simpl; set_solver.
  - intros k s Hk. destruct task_id as [tid|]; [| simpl; eauto].
    destruct (truthy (Some tid)); [| simpl; eauto]. simpl.
    destruct (decide (tid = k)) as [->|Hne].
    + rewrite lookup_insert_eq, Hk. simpl. eexists. split; [done |].
      set_solver.
    + rewrite lookup_insert_ne by done. eauto.
  - destruct task_id as [tid|]; [| done]. unfold truthy.
    destruct (String.eqb tid EmptyString); simpl; [done |].
    rewrite lookup_insert_eq. eexists. split; [done |]. set_solver.
  - destruct task_id as [tid|]; [| done]. by destruct (truthy (Some tid)).
  - eauto.
Qed.

Lemma connect_active ws task_id m :
  active_connections (exec (connect ws task_id true) m)
  = {[ws]} ∪ active_connections m.
Proof.
  unfold exec. rewrite connect_eq. cbn [snd].
  destruct task_id as [tid|]; [| done]. by destruct (truthy (Some tid)).
Qed.

Lemma connect_wire ws task_id m :
  wire (exec (connect ws task_id true) m) = wire m.
Proof.
  unfold exec. rewrite connect_eq. cbn [snd].
  destruct task_id as [tid|]; [| done]. by destruct (truthy (Some tid)).
Qed.

Lemma connect_then_pruned ws task_id m k :
  ws_inv m -> ws ∉ active_connections m ->
  task_subscribers (exec (connect ws task_id true) m) !! k ≫= pruned ws
  = task_subscribers m !! k.
Proof.
  intros Hinv Ha.
  assert (Hsame : task_subscribers m !! k ≫= pruned ws
                  = task_subscribers m !! k).
  { destruct (task_subscribers m !! k) as [s|] eqn:Hk; [simpl | done].
    destruct (Hinv k s Hk). apply pruned_absent; [done | set_solver]. }
  unfold exec. rewrite connect_eq. cbn [snd].
  destruct task_id as [tid|]; [| done].
  destruct (truthy (Some tid)); [| done]. cbn [task_subscribers].
  destruct (decide (tid = k)) as [->|Hne].
  - rewrite lookup_insert_eq. simpl. unfold pruned.
    destruct (task_subscribers m !! k) as [s|] eqn:Hk; simpl.
    + destruct (Hinv k s Hk) as [Hne Hsub].
      assert (({[ws]} ∪ s) ∖ {[ws]} = s) as -> by set_solver.
      by rewrite bool_decide_eq_false_2.
    + assert (({[ws]} ∪ ∅) ∖ {[ws]} = (∅ : gset WebSocket)) as ->
        by set_solver.
      by rewrite bool_decide_eq_true_2.
  - by rewrite lookup_insert_ne.
Qed.

(** X16: Connecting and then disconnecting a connection that was not active
    leaves a reachable manager exactly as it was. *)
Theorem connect_disconnect_round_trip (cs : list ws_call) (ws : WebSocket)
    (task_id : option string) :
  ws ∉ active_connections (ws_run WebSocketManager_init cs) ->
  exec (disconnect ws)
       (exec (connect ws task_id true) (ws_run WebSocketManager_init cs))
  = ws_run WebSocketManager_init cs.
Proof.
  intros Ha. pose proof (ws_inv_run cs _ ws_inv_init) as Hinv.
  remember (ws_run WebSocketManager_init cs) as m eqn:Hm. clear Hm.
  pose proof (fun k => disconnect_lookup ws
                         (exec (connect ws task_id true) m) k) as Hl.
  pose proof (fun k => connect_then_pruned ws task_id m k Hinv Ha) as Hp.
  unfold exec at 1. unfold exec at 1 in Hl.
  rewrite disconnect_eq in Hl |- *. simpl in Hl |- *.
  rewrite connect_active, connect_wire.
  destruct m as [active subs w]. simpl in *. f_equal.
  - set_solver.
  - apply map_eq. intros k. by rewrite Hl, Hp.
Qed.

(** The theorem at a new connection 7 after [three_connections]. *)
Lemma connect_disconnect_round_trip_witness :
  (7 ∉ active_connections (ws_run WebSocketManager_init three_connections))
  /\ exec (disconnect 7)
          (exec (connect 7 (Some "a") true)
                (ws_run WebSocketManager_init three_connections))
     = ws_run WebSocketManager_init three_connections.
Proof.
  assert (H7 : 7 ∉ active_connections
                     (ws_run WebSocketManager_init three_connections)).
  { apply (bool_decide_unpack _). vm_compute. exact I. }
  exact (conj H7 (connect_disconnect_round_trip three_connections 7
                    (Some "a") H7)).
Defined.

(** ** Delivery *)

Lemma send_loop_spec message broken receivers disconnected m :
  send_loop message broken receivers disconnected m
  = (Returns (disconnected
              ∪ list_to_set (filter (fun w => broken w = true) receivers)),
     with_wire
       (wire m
        ++ map (fun w => (w, message))
               (filter (fun w => broken w = false) receivers))%list
       m).
Proof.
  revert disconnected m.
  induction receivers as [|ws rest IH]; intros disconnected m.
  - cbn [send_loop]. unfold ret. rewrite !filter_nil, list_to_set_nil.
    simpl. rewrite app_nil_r. destruct m. do 2 f_equal. set_solver.
  - cbn [send_loop]. rewrite !filter_cons.
    destruct (broken ws) eqn:Hb.
    + rewrite IH. repeat case_decide; try done. do 2 f_equal.
      rewrite list_to_set_cons. set_solver.
    + cbv [bind modify]. rewrite IH. repeat case_decide; try done.
      unfold with_wire. simpl. do 2 f_equal. by rewrite <- app_assoc.
Qed.

Lemma pruned_then_pruned_set ws dead s :
  pruned ws s ≫= pruned_set dead = pruned_set ({[ws]} ∪ dead) s.
Proof.
  assert (Hd : (s ∖ {[ws]}) ∖ dead = s ∖ ({[ws]} ∪ dead)) by set_solver.
  unfold pruned, pruned_set. case_bool_decide as H1; simpl.
  - rewrite bool_decide_eq_true_2; [done |]. set_solver.
  - unfold pruned_set. by rewrite Hd.
Qed.

Lemma disconnect_all_spec l m :
  (forall k s, task_subscribers m !! k = Some s -> s <> ∅) ->
  exists m',
    disconnect_all l m = (Returns tt, m')
    /\ active_connections m' = active_connections m ∖ list_to_set l
    /\ wire m' = wire m
    /\ forall k, task_subscribers m' !! k
                 = task_subscribers m !! k ≫= pruned_set (list_to_set l).
Proof.
  revert m. induction l as [|ws l IH]; intros m Hne.
  - exists m. split_and!; try done.
    + simpl. set_solver.
    + intros k. destruct (task_subscribers m !! k) as [s|] eqn:Hk; [| done].
      simpl. unfold pruned_set. rewrite ?list_to_set_nil.
      assert (s ∖ ∅ = s) as -> by set_solver.
      rewrite bool_decide_eq_false_2; [done |]. by apply (Hne k).
  - destruct (IH (exec (disconnect ws) m)) as (m' & Hm' & Ha & Hw & Hs).
    { intros k s Hk. rewrite disconnect_lookup in Hk.
      destruct (task_subscribers m !! k); [simpl in Hk | done].
      by apply pruned_Some in Hk as [_ ?]. }
    exists m'. split_and!.
    + cbn [disconnect_all]. unfold bind. rewrite disconnect_eq.
      unfold exec in Hm'. by rewrite disconnect_eq in Hm'.
    + rewrite Ha. unfold exec. rewrite disconnect_eq. simpl. set_solver.
    + rewrite Hw. done.
    + intros k. rewrite Hs, disconnect_lookup.
      destruct (task_subscribers m !! k) as [s|]; [simpl | done].
      apply pruned_then_pruned_set.
Qed.

Lemma broadcast_spec message broken (receivers : gset WebSocket) m :
  (forall k s, task_subscribers m !! k = Some s -> s <> ∅) ->
  exists m',
    bind (send_loop message broken (elements receivers) ∅)
         (fun disconnected => disconnect_all (elements disconnected)) m
    = (Returns tt, m')
    /\ active_connections m'
       = active_connections m ∖ filter (fun w => broken w = true) receivers
    /\ wire m'
       = (wire m
          ++ map (fun w => (w, message))
                 (filter (fun w => broken w = false) (elements receivers)))%list
    /\ forall k,
         task_subscribers m' !! k
         = task_subscribers m !! k
             ≫= pruned_set (filter (fun w => broken w = true) receivers).
Proof.
  intros Hne. unfold bind. rewrite send_loop_spec.
  match goal with
  | |- context [disconnect_all (elements ?d) ?w] =>
      set (dead := d); set (m1 := w)
  end.
  assert (Hdead : (list_to_set (elements dead) : gset WebSocket)
                  = filter (fun w => broken w = true) receivers).
  { rewrite list_to_set_elements_L. apply set_eq. intros w. unfold dead.
    rewrite elem_of_union, elem_of_list_to_set, list_elem_of_filter,
      elem_of_filter, elem_of_elements. set_solver. }
  destruct (disconnect_all_spec (elements dead) m1)
    as (m' & Hm' & Ha & Hw & Hs); [done |].
  exists m'. rewrite Hdead in Ha, Hs. split_and!; done.
Qed.

Lemma healthy_deliveries message broken (receivers : gset WebSocket) :
  NoDup (map fst (map (fun w : WebSocket => (w, message))
                      (filter (fun w => broken w = false) (elements receivers))))
  /\ (forall w,
        w ∈ map fst (map (fun w : WebSocket => (w, message))
                         (filter (fun w => broken w = false)
                                 (elements receivers)))
        <-> w ∈ receivers /\ broken w = false)
  /\ Forall (fun d : WebSocket * pydict => snd d = message)
            (map (fun w : WebSocket => (w, message))
                 (filter (fun w => broken w = false) (elements receivers))).
Proof.
  assert (Hfst : map fst (map (fun w : WebSocket => (w, message))
                              (filter (fun w => broken w = false)
                                      (elements receivers)))
                 = filter (fun w => broken w = false) (elements receivers)).
  { induction (filter _ _) as [|w l IH]; simpl; [done |]. by rewrite IH. }
  rewrite Hfst. split_and!.
  - apply NoDup_filter, NoDup_elements.
  - intros w. rewrite list_elem_of_filter, elem_of_elements. tauto.
  - apply Forall_forall. intros d Hd.
    apply (list_elem_of_fmap (fun w : WebSocket => (w, message)))
      in Hd as (w & -> & _).
    done.
Qed.

Lemma no_empty_set_of_inv m :
  ws_inv m -> forall k s, task_subscribers m !! k = Some s -> s <> ∅.
Proof. intros Hm k s Hk. by destruct (Hm k s Hk). Qed.

Lemma send_loop_quiet_eq expected message broken receivers disconnected m :
  size (active_connections m) = expected ->
  send_loop_quiet expected message broken receivers disconnected m
  = send_loop message broken receivers disconnected m.
Proof.
  revert disconnected m.
  induction receivers as [|ws rest IH]; intros disconnected m Hsize;
    simpl; unfold bind at 1; rewrite iterator_check_eq, Hsize, Nat.eqb_refl;
    [done |].
  unfold bind at 1. rewrite send_one_eq.
  destruct (broken ws); [by apply IH |].
  cbv [bind modify]. by apply IH.
Qed.

Lemma send_to_all_eq message now broken m :
  send_to_all message now broken [] m
  = bind (send_loop (dict_set "timestamp" (PStr (isoformat now)) message)
                    broken (elements (active_connections m)) ∅)
         (fun disconnected => disconnect_all (elements disconnected)) m.
Proof.
  unfold send_to_all. unfold bind at 1. unfold gets.
  case_bool_decide as He.
  - rewrite He, elements_empty. cbn [send_loop]. unfold bind, ret.
    rewrite elements_empty. simpl. done.
  - unfold bind. cbn [send_loop_live]. by rewrite send_loop_quiet_eq.
Qed.

Lemma send_loop_live_raises expected message broken during receivers
    disconnected m :
  size (active_connections m) <> expected ->
  send_loop_live expected message broken during receivers disconnected m
  = (Raises (RuntimeError "Set changed size during iteration"), m).
Proof.
  intros Hsize. apply Nat.eqb_neq in Hsize.
  destruct during, receivers; simpl; unfold bind at 1;
    by rewrite iterator_check_eq, Hsize.
Qed.

Lemma mutate_same m1 m2 x :
  active_connections m1 = active_connections m2 ->
  task_subscribers m1 = task_subscribers m2 ->
  active_connections (mutate m1 x) = active_connections (mutate m2 x)
  /\ task_subscribers (mutate m1 x) = task_subscribers (mutate m2 x).
Proof.
  destruct m1 as [a1 s1 w1], m2 as [a2 s2 w2]. simpl. intros -> ->.
  destruct x as [ws tid|ws|ws msg]; simpl; unfold exec;
    rewrite ?connect_eq, ?disconnect_eq; simpl; [| done | done].
  destruct tid as [tid|]; [| done]. by destruct (truthy (Some tid)).
Qed.

Lemma mutations_same l m1 m2 :
  active_connections m1 = active_connections m2 ->
  task_subscribers m1 = task_subscribers m2 ->
  active_connections (fold_left mutate l m1)
  = active_connections (fold_left mutate l m2).
Proof.
  revert m1 m2. induction l as [|x l IH]; intros m1 m2 Ha Hs; simpl; [done |].
  destruct (mutate_same m1 m2 x Ha Hs). by apply IH.
Qed.

Lemma send_loop_quiet_outcome expected message broken receivers disconnected m :
  match outcome (send_loop_quiet expected message broken receivers
                   disconnected) m with
  | Returns _ => True
  | Raises e => e = RuntimeError "Set changed size during iteration"
  end.
Proof.
  revert disconnected m.
  induction receivers as [|ws rest IH]; intros disconnected m;
    unfold outcome in *; simpl; unfold bind at 1; rewrite iterator_check_eq;
    destruct (Nat.eqb (size (active_connections m)) expected); try done.
  unfold bind. rewrite send_one_eq. apply IH.
Qed.

Lemma send_loop_live_outcome expected message broken during receivers
    disconnected m :
  match outcome (send_loop_live expected message broken during receivers
                   disconnected) m with
  | Returns _ => True
  | Raises e => e = RuntimeError "Set changed size during iteration"
  end.
Proof.
  revert receivers disconnected m.
  induction during as [|i during IH]; intros receivers disconnected m.
  { apply send_loop_quiet_outcome. }
  unfold outcome in *. simpl. unfold bind at 1. rewrite iterator_check_eq.
  destruct (Nat.eqb (size (active_connections m)) expected); [| done].
  destruct receivers as [|ws rest]; [done |].
  unfold bind at 1. rewrite send_one_eq. cbv [bind modify gets]. apply IH.
Qed.

Lemma send_to_all_outcome message now broken during m :
  match outcome (send_to_all message now broken during) m with
  | Returns _ => True
  | Raises e => e = RuntimeError "Set changed size during iteration"
  end.
Proof.
  unfold outcome, send_to_all. unfold bind at 1. unfold gets.
  case_bool_decide; [done |].
  pose proof (send_loop_live_outcome (size (active_connections m))
                (dict_set "timestamp" (PStr (isoformat now)) message)
                broken during (elements (active_connections m)) ∅ m) as Hl.
  unfold outcome in Hl. unfold bind.
  destruct (send_loop_live _ _ _ _ _ _ m) as [[d|e] m1]; simpl in *; [| done].
  pose proof (disconnect_all_returns (elements d) m1) as Hd.
  unfold outcome in Hd. by rewrite Hd.
Qed.

(** X17: [send_to_all] loops over the live set of connections.  In every
    state reached from a fresh manager: when no other coroutine touches the
    manager while the sends are awaited, the call returns normally, the
    messages put on the wire are the given message with its ["timestamp"]
    set, one for each active connection whose [send_text] does not raise and
    none for any other, afterwards exactly those connections are active, and
    each subscriber set has lost the failed connections and is gone when
    none is left.  When there are active connections and the other
    coroutines change their number while the first send is awaited, the call
    raises [RuntimeError]; the manager is then as the others left it, with
    the one delivery when that send went through, and the clean-up has not
    run: a connection whose send failed is still registered.  With any
    interference, the call either returns normally or raises that
    [RuntimeError]. *)
Theorem send_to_all_delivery (cs : list ws_call) (message : pydict)
    (now : datetime) (broken : WebSocket -> bool) (i : interference)
    (during : list interference) :
  (exists m' deliveries,
    send_to_all message now broken [] (ws_run WebSocketManager_init cs)
    = (Returns tt, m')
    /\ wire m' = (wire (ws_run WebSocketManager_init cs) ++ deliveries)%list
    /\ NoDup (map fst deliveries)
    /\ (forall w,
          w ∈ map fst deliveries
          <-> w ∈ active_connections (ws_run WebSocketManager_init cs)
              /\ broken w = false)
    /\ Forall (fun d : WebSocket * pydict =>
                 snd d = dict_set "timestamp" (PStr (isoformat now)) message)
              deliveries
    /\ (forall w,
          w ∈ active_connections m'
          <-> w ∈ active_connections (ws_run WebSocketManager_init cs)
              /\ broken w = false)
    /\ forall k,
         task_subscribers m' !! k
         = task_subscribers (ws_run WebSocketManager_init cs) !! k
             ≫= pruned_set
                  (filter (fun w => broken w = true)
                     (active_connections (ws_run WebSocketManager_init cs))))
  /\ (active_connections (ws_run WebSocketManager_init cs) <> ∅ ->
      size (active_connections
              (fold_left mutate (i_mutations i)
                 (ws_run WebSocketManager_init cs)))
      <> size (active_connections (ws_run WebSocketManager_init cs)) ->
      exists ws,
        ws ∈ active_connections (ws_run WebSocketManager_init cs)
        /\ send_to_all message now broken (i :: during)
             (ws_run WebSocketManager_init cs)
           = (Raises (RuntimeError "Set changed size during iteration"),
              fold_left mutate (i_mutations i)
                (if broken ws then ws_run WebSocketManager_init cs
                 else with_wire
                        (wire (ws_run WebSocketManager_init cs)
                         ++ [(ws, dict_set "timestamp" (PStr (isoformat now))
                                    message)])%list
                        (ws_run WebSocketManager_init cs))))
  /\ (outcome (send_to_all message now broken (i :: during))
        (ws_run WebSocketManager_init cs) = Returns tt
      \/ outcome (send_to_all message now broken (i :: during))
           (ws_run WebSocketManager_init cs)
         = Raises (RuntimeError "Set changed size during iteration")).
Proof.
  pose proof (no_empty_set_of_inv _ (ws_inv_run cs _ ws_inv_init)) as Hne.
  remember (ws_run WebSocketManager_init cs) as m eqn:Hm. clear Hm.
  split_and!.
  - rewrite send_to_all_eq.
    destruct (broadcast_spec
                (dict_set "timestamp" (PStr (isoformat now)) message)
                broken (active_connections m) m Hne)
      as (m' & -> & Ha & Hw & Hs).
    destruct (healthy_deliveries
                (dict_set "timestamp" (PStr (isoformat now)) message)
                broken (active_connections m)) as (Hnd & Hin & Hall).
    exists m'. eexists.
    split_and!; [done | exact Hw | done | done | done | | done].
    intros w. rewrite Ha, elem_of_difference, elem_of_filter.
    destruct (broken w) eqn:Hb; split.
    + intros [Hw1 Hn]. exfalso. by apply Hn.
    + by intros [_ ?].
    + by intros [Hw1 _].
    + intros [Hw1 _]. split; [done |]. by intros [? _].
  - intros Hact Hsize.
    destruct (elements (active_connections m)) as [|ws rest] eqn:He.
    { by apply elements_empty_inv, leibniz_equiv in He. }
    exists ws. split.
    { apply elem_of_elements. rewrite He. by left. }
    unfold send_to_all. unfold bind at 1. unfold gets.
    rewrite bool_decide_eq_false_2 by done.
    rewrite He. unfold bind at 1. cbn [send_loop_live].
    unfold bind at 1. rewrite iterator_check_eq, Nat.eqb_refl.
    unfold bind at 1. rewrite send_one_eq. cbv [bind modify gets].
    rewrite send_loop_live_raises; [done |].
    intros Heq. apply Hsize. rewrite <- Heq. f_equal.
    apply mutations_same; by destruct (broken ws).
  - pose proof (send_to_all_outcome message now broken (i :: during) m) as Ho.
    destruct (outcome (send_to_all message now broken (i :: during)) m)
      as [[]|e]; [by left | right; by rewrite Ho].
Qed.

(** The theorem after [three_connections], when a client connects while the
    first send is awaited. *)
Lemma send_to_all_delivery_witness :
  active_connections (ws_run WebSocketManager_init three_connections) <> ∅
  /\ size (active_connections
             (fold_left mutate [MConnect 4 None]
                (ws_run WebSocketManager_init three_connections)))
     <> size (active_connections
                (ws_run WebSocketManager_init three_connections))
  /\ outcome (send_to_all [("type", PStr "system")] t2 first_broken
                a_client_connects)
       (ws_run WebSocketManager_init three_connections)
     = Raises (RuntimeError "Set changed size during iteration").
Proof.
  pose proof (send_to_all_delivery three_connections [("type", PStr "system")]
                t2 first_broken (mk_interference [MConnect 4 None] []) [])
    as (_ & H2 & _).
  assert (Ha : active_connections
                 (ws_run WebSocketManager_init three_connections) <> ∅).
  { intros He. apply (f_equal size) in He. vm_compute in He. discriminate. }
  assert (Hs : size (active_connections
                       (fold_left mutate [MConnect 4 None]
                          (ws_run WebSocketManager_init three_connections)))
               <> size (active_connections
                          (ws_run WebSocketManager_init three_connections))).
  { vm_compute. discriminate. }
  destruct (H2 Ha Hs) as (ws & _ & Heq).
  split_and!; [exact Ha | exact Hs |].
  unfold outcome, a_client_connects. by rewrite Heq.
Defined.

(** X18: [broadcast_task_update], and with it [broadcast_agent_step],
    [broadcast_task_started], [broadcast_task_completed],
    [broadcast_task_failed] and [broadcast_browser_action], reaches the
    subscribers of the task and nobody else.  In every state reached from a
    fresh manager, when the task id has the subscriber set [s], the call
    returns normally; the wire gets the envelope (type, update type, data,
    task id, timestamp), once for each member of [s] whose [send_text] does
    not raise and for no other connection; the members that failed are
    no longer active and are taken out of every subscriber set. *)
Theorem task_update_delivery (cs : list ws_call) (task_id update_type : string)
    (data : pydict) (now : datetime) (broken : WebSocket -> bool)
    (s : gset WebSocket) :
  task_subscribers (ws_run WebSocketManager_init cs) !! task_id = Some s ->
  exists m' deliveries,
    broadcast_task_update task_id update_type data now broken
      (ws_run WebSocketManager_init cs)
    = (Returns tt, m')
    /\ wire m' = (wire (ws_run WebSocketManager_init cs) ++ deliveries)%list
    /\ NoDup (map fst deliveries)
    /\ (forall w, w ∈ map fst deliveries <-> w ∈ s /\ broken w = false)
    /\ Forall (fun d : WebSocket * pydict =>
                 snd d = task_update_envelope task_id update_type data now)
              deliveries
    /\ active_connections m'
       = active_connections (ws_run WebSocketManager_init cs)
           ∖ filter (fun w => broken w = true) s
    /\ forall k,
         task_subscribers m' !! k
         = task_subscribers (ws_run WebSocketManager_init cs) !! k
             ≫= pruned_set (filter (fun w => broken w = true) s).
Proof.
  pose proof (no_empty_set_of_inv _ (ws_inv_run cs _ ws_inv_init)) as Hne.
  remember (ws_run WebSocketManager_init cs) as m eqn:Hm. clear Hm.
  intros Hs.
  unfold broadcast_task_update, send_to_task_subscribers.
  unfold bind at 1. unfold gets. rewrite Hs.
  change (dict_set "timestamp" (PStr (isoformat now))
            (dict_set "task_id" (PStr task_id)
               [("type", PStr "task_update");
                ("update_type", PStr update_type);
                ("data", PDict data)]))
    with (task_update_envelope task_id update_type data now).
  destruct (broadcast_spec
              (task_update_envelope task_id update_type data now)
              broken s m Hne) as (m' & -> & Ha & Hw & Hsub).
  destruct (healthy_deliveries
              (task_update_envelope task_id update_type data now) broken s)
    as (Hnd & Hin & Hall).
  exists m'. eexists. split_and!; [done | exact Hw | done | done | done | done | done].
Qed.

(** The theorem at the update that [three_connections] ends with, sent
    once more: connection 1 is gone by then, connection 2 takes it. *)
Lemma task_update_delivery_witness :
  task_subscribers (ws_run WebSocketManager_init three_connections) !! "a"
  = Some {[2]}
  /\ exists m' deliveries,
       broadcast_task_update "a" "task_completed" [] t2 first_broken
         (ws_run WebSocketManager_init three_connections)
       = (Returns tt, m')
       /\ wire m'
          = (wire (ws_run WebSocketManager_init three_connections)
             ++ deliveries)%list
       /\ NoDup (map fst deliveries)
       /\ (forall w, w ∈ map fst deliveries
                     <-> w ∈ ({[2]} : gset WebSocket) /\ first_broken w = false)
       /\ Forall (fun d : WebSocket * pydict =>
                    snd d = task_update_envelope "a" "task_completed" [] t2)
                 deliveries
       /\ active_connections m'
          = active_connections (ws_run WebSocketManager_init three_connections)
              ∖ filter (fun w => first_broken w = true) ({[2]} : gset WebSocket)
       /\ forall k,
            task_subscribers m' !! k
            = task_subscribers (ws_run WebSocketManager_init three_connections)
                !! k
                ≫= pruned_set (filter (fun w => first_broken w = true)
                                      ({[2]} : gset WebSocket)).
Proof.
  assert (H : task_subscribers
                (ws_run WebSocketManager_init three_connections) !! "a"
              = Some {[2]}) by (vm_compute; reflexivity).
  exact (conj H (task_update_delivery three_connections "a" "task_completed"
                   [] t2 first_broken {[2]} H)).
Defined.

(** What [three_connections] puts on the wire: the update for ["a"]
    reaches connection 2 only, connection 1 being broken and connection 3
    not subscribed. *)
Example wire_of_three_connections :
  wire (ws_run WebSocketManager_init three_connections)
  = [(2, [("type", PStr "task_update");
          ("task_id", PStr "a");
          ("timestamp", PStr "2024-05-17T09:30:01.000250")])]
  /\ elements (active_connections
                 (ws_run WebSocketManager_init three_connections))
     = [2; 3].
Proof. split; vm_compute; reflexivity. Qed.

(** ** Connection statistics *)

Lemma size_nonempty (s : gset WebSocket) : s <> ∅ -> 1 <= size s.
Proof.
  intros Hs. destruct (size s) eqn:Hz; [| lia].
  exfalso. apply Hs. by apply leibniz_equiv, size_empty_inv.
Qed.

Lemma sum_sizes_ge_length (l : list (gset WebSocket)) :
  Forall (fun s => s <> ∅) l ->
  length l <= foldr (fun subscribers n => size subscribers + n) 0 l.
Proof.
  induction 1 as [|s l Hs _ IH]; simpl; [lia |].
  pose proof (size_nonempty s Hs). lia.
Qed.

(** X19: The statistics of the broadcaster in a state reached from a fresh
    manager: the total is the number of active connections; every task
    listed has at least one subscriber and no more than there are
    connections; the tasks listed are those of [task_subscribers]; and the
    total of subscriptions is at least the number of tasks listed.  The
    call changes nothing. *)
Theorem connection_stats_bounds (cs : list ws_call) :
  exists stats,
    get_connection_stats (ws_run WebSocketManager_init cs)
    = (Returns stats, ws_run WebSocketManager_init cs)
    /\ cs_total_connections stats
       = size (active_connections (ws_run WebSocketManager_init cs))
    /\ dom (cs_task_subscriptions stats)
       = dom (task_subscribers (ws_run WebSocketManager_init cs))
    /\ (forall k n,
          cs_task_subscriptions stats !! k = Some n ->
          1 <= n <= cs_total_connections stats)
    /\ size (cs_task_subscriptions stats) <= cs_total_task_subscribers stats.
Proof.
  pose proof (ws_inv_run cs _ ws_inv_init) as Hinv.
  remember (ws_run WebSocketManager_init cs) as m eqn:Hm. clear Hm.
  eexists. split; [reflexivity |]. simpl. split_and!.
  - done.
  - apply dom_fmap_L.
  - intros k n Hk. rewrite lookup_fmap in Hk.
    destruct (task_subscribers m !! k) as [s|] eqn:Hs; [| done].
    injection Hk as <-. destruct (Hinv k s Hs) as [Hne Hsub]. split.
    + by apply size_nonempty.
    + by apply subseteq_size.
  - rewrite map_size_fmap, <- length_map_to_list.
    rewrite <- (length_map snd).
    apply sum_sizes_ge_length. apply Forall_forall. intros s Hs.
    apply (list_elem_of_fmap snd) in Hs as ([k s'] & -> & Hin).
    apply elem_of_map_to_list in Hin. by destruct (Hinv k s' Hin).
Qed.

(** ** The endpoints *)

(** X20: [DELETE /api/tasks/{task_id}]: for an id the registry does not know the
    answer is 404 "Task not found" and neither the registry nor the
    broadcaster changes; for every other id, whatever the status of the
    task, the answer is the message "Task cancelled", the registry is as
    [cancel_task] leaves it, and the update "task_cancelled" is broadcast
    to the subscribers of the task. *)
Theorem delete_task_endpoint (s : Service) (task_id : string)
    (now sent : datetime) (broken : WebSocket -> bool) :
  match tasks (task_queue s) !! task_id with
  | None =>
      endpoints.cancel_task task_id now sent broken s
      = (Raises (HTTPException 404 "Task not found"), s)
  | Some t =>
      endpoints.cancel_task task_id now sent broken s
      = (Returns [("message", PStr "Task cancelled")],
         mk_Service
           (exec (cancel_task task_id now) (task_queue s))
           (exec (broadcast_task_update task_id "task_cancelled" [] sent broken)
                 (websocket_manager s)))
      /\ status_of task_id (exec (cancel_task task_id now) (task_queue s))
         = Some CANCELLED
      /\ outcome (broadcast_task_update task_id "task_cancelled" [] sent broken)
                 (websocket_manager s) = Returns tt
  end.
Proof.
  assert (Hb : forall w,
             outcome (broadcast_task_update task_id "task_cancelled" []
                        sent broken) w = Returns tt).
  { intros w. unfold outcome, broadcast_task_update, send_to_task_subscribers.
    unfold bind at 1. unfold gets.
    destruct (task_subscribers w !! task_id) as [subs|]; [| done].
    unfold bind. rewrite send_loop_spec.
    apply disconnect_all_returns. }
  destruct (tasks (task_queue s) !! task_id) as [t|] eqn:Ht.
  - split_and!; [| by apply status_of_cancel with t | apply Hb].
    unfold endpoints.cancel_task, bind, on_task_queue, on_websocket_manager.
    rewrite (cancel_task_known _ _ _ _ Ht). simpl.
    pose proof (Hb (websocket_manager s)) as Hw. unfold outcome in Hw.
    unfold exec. rewrite (cancel_task_known _ _ _ _ Ht). simpl.
    destruct (broadcast_task_update task_id "task_cancelled" [] sent broken
                (websocket_manager s)) as [c w]. simpl in *. by subst.
  - unfold endpoints.cancel_task, bind, on_task_queue.
    rewrite (cancel_task_unknown _ _ _ Ht). simpl. by destruct s.
Qed.

(** X21: [POST /api/execute] never answers 500: it returns the drawn id with the
    status "queued"; the registry then holds, under that id, a [PENDING]
    task with the command and the three selectors of the request, the
    creation time, no start or completion time, no result, no error and no
    progress; the [put] of the id is scheduled last; and "task_started" is
    broadcast to whoever subscribed to the id before. *)
Theorem execute_command_endpoint (s : Service) (request : ExecuteCommandRequest)
    (task_id : string) (now sent : datetime) (broken : WebSocket -> bool) :
  exists q' w',
    endpoints.execute_command request task_id now sent broken s
    = (Returns (mk_ExecuteCommandResponse task_id "queued"
                  "Task created and queued for execution"),
       mk_Service q' w')
    /\ tasks q' !! task_id
       = Some (mk_Task task_id (req_command request) PENDING now None None
                 PNone PNone [] (req_llm_provider request)
                 (req_llm_model request) (req_browser_profile request))
    /\ (forall i, i <> task_id -> tasks q' !! i = tasks (task_queue s) !! i)
    /\ scheduled_puts q' = (scheduled_puts (task_queue s) ++ [task_id])%list
    /\ pending_queue q' = pending_queue (task_queue s)
    /\ running_tasks q' = running_tasks (task_queue s)
    /\ w' = exec (broadcast_task_started task_id
                    [("command", PStr (req_command request));
                     ("llm_provider", PStr (req_llm_provider request));
                     ("llm_model", PStr (req_llm_model request))]
                    sent broken) (websocket_manager s).
Proof.
  assert (Hb : forall data w,
             outcome (broadcast_task_started task_id data sent broken) w
             = Returns tt).
  { intros data w.
    unfold outcome, broadcast_task_started, broadcast_task_update,
      send_to_task_subscribers.
    unfold bind at 1. unfold gets.
    destruct (task_subscribers w !! task_id) as [subs|]; [| done].
    unfold bind. rewrite send_loop_spec.
    apply disconnect_all_returns. }
  unfold endpoints.execute_command, bind, on_task_queue, on_websocket_manager.
  cbn [create_task]. unfold create_task, bind, modify, ret. simpl.
  match goal with
  | |- context [broadcast_task_started ?i ?d ?t ?b ?w] =>
      pose proof (Hb d w) as Hw; unfold outcome in Hw; unfold exec;
      destruct (broadcast_task_started i d t b w) as [c w'] eqn:Hbw
  end.
  simpl in Hw. subst c. do 2 eexists. split; [reflexivity |].
  simpl. split_and!; try done.
  - rewrite lookup_insert_eq. do 2 f_equal; by simplify_map_eq.
  - intros i Hi. by rewrite lookup_insert_ne.
Qed.

(** X22: [GET /api/tasks] changes nothing, and its listing never has more
    entries than the total the statistics beside it report; with a limit
    that is not negative it has [min limit total] entries. *)
Theorem list_tasks_endpoint (s : Service) (limit : Z) :
  exists listed stats,
    endpoints.list_tasks limit s = (Returns (listed, stats), s)
    /\ length listed <= qs_total_tasks stats
    /\ length listed
       = (if (0 <=? limit)%Z
          then Nat.min (Z.to_nat limit) (qs_total_tasks stats)
          else qs_total_tasks stats - Z.to_nat (- limit))
    /\ breakdown_total (qs_status_breakdown stats) = qs_total_tasks stats.
Proof.
  destruct (get_all_tasks_length (task_queue s) limit) as (listed & Hk & Hlen).
  destruct (get_queue_stats_total (task_queue s)) as (stats & Hst & Hsum & Htot).
  exists listed, stats. split_and!.
  - unfold endpoints.list_tasks, bind, on_task_queue.
    rewrite Hk. cbn [task_queue websocket_manager]. rewrite Hst.
    cbn [task_queue websocket_manager]. by destruct s.
  - rewrite Hlen, Htot. destruct (0 <=? limit)%Z; lia.
  - by rewrite Hlen, Htot.
  - done.
Qed.

(** ** Completion times *)

Lemma task_update_terminal_completed g t :
  task_update g ->
  (terminal (status t) = true -> is_Some (completed_at t)) ->
  terminal (status (g t)) = true -> is_Some (completed_at (g t)).
Proof.
  destruct 1 as [|s kw now _|]; simpl; try done.
  intros _ ->. eauto.
Qed.

Lemma terminal_completed_step q e :
  terminal_completed q -> terminal_completed (step q e).
Proof.
  intros Hq i t' Ht' Hs. destruct (creates i e) eqn:Hc.
  - destruct (step_creates q e i Hc) as (now & cmd & kw & Hn).
    rewrite Hn in Ht'. injection Ht' as <-. done.
  - destruct (step_lookup q e i Hc) as (g & Hg & Hu).
    rewrite Hg in Ht'. destruct (tasks q !! i) as [t|] eqn:Ht; [| done].
    injection Ht' as <-.
    apply task_update_terminal_completed; [done | | done].
    by apply (Hq i t).
Qed.

Lemma terminal_completed_run es q :
  terminal_completed q -> terminal_completed (run q es).
Proof.
  revert q. induction es as [|e es IH]; intros q Hq; simpl; [done |].
  apply IH. by apply terminal_completed_step.
Qed.

Lemma terminal_completed_init C : terminal_completed (TaskQueue_configured C).
Proof. intros i t Ht. simpl in Ht. by rewrite lookup_empty in Ht. Qed.

(** X12: In every state the service reaches, a task in a terminal status has its
    completion time, so [GET /api/tasks/{task_id}/result] on a [COMPLETED]
    task never fails on the missing time: it answers with the stored
    result, the progress and that time. *)
Theorem completed_task_result_answer (C : Z) (es : list event) (i : string)
    (t : Task) :
  tasks (run (TaskQueue_configured C) es) !! i = Some t ->
  status t = COMPLETED ->
  exists completed,
    completed_at t = Some completed
    /\ api_server.get_task_result i (run (TaskQueue_configured C) es)
       = (Returns [("task_id", PStr i);
                   ("result", result t);
                   ("progress", PList (progress t));
                   ("completed_at", PStr (isoformat completed))],
          run (TaskQueue_configured C) es).
Proof.
  intros Ht Hs.
  destruct (terminal_completed_run es _ (terminal_completed_init C) i t Ht)
    as [c Hc]; [by rewrite Hs |].
  exists c. split; [done |].
  unfold api_server.get_task_result, bind, get_task, gets. simpl.
  rewrite Ht. rewrite bool_decide_eq_false_2 by (by rewrite Hs; intros ?).
  by rewrite Hc.
Qed.

(** The theorem at the completed task of [q_completed]. *)
Lemma completed_task_result_answer_witness :
  exists completed,
    Some t2 = Some completed
    /\ api_server.get_task_result "a" q_completed
       = (Returns [("task_id", PStr "a");
                   ("result", PDict [("success", PBool true)]);
                   ("progress",
                    PList [PDict [("timestamp", PStr (isoformat t1));
                                  ("step", PStr "Starting execution");
                                  ("details", PDict [])]]);
                   ("completed_at", PStr (isoformat completed))],
          q_completed).
Proof.
  exact (completed_task_result_answer 3
           [EvExecute "a" t0 "open example.org" ∅; EvPut; EvDispatch 1 t1;
            EvProgress "a" "Starting execution" None t1;
            EvCompleted "a" (PDict [("success", PBool true)]) t2]
           "a"
           (mk_Task "a" "open example.org" COMPLETED t0 (Some t1) (Some t2)
              (PDict [("success", PBool true)]) PNone
              [PDict [("timestamp", PStr (isoformat t1));
                      ("step", PStr "Starting execution");
                      ("details", PDict [])]]
              "mac_studio" "llama4:scout" "anti_bot")
           eq_refl eq_refl).
Defined.

(** [started_at_write_once] at the task of [q_completed], which started at
    [t1]: a late progress entry, a cancel request and a late failure
    report leave the start time alone. *)
Lemma started_at_write_once_witness :
  forallb (fun e => negb (creates "a" e))
          [EvProgress "a" "late" None t3; EvCancel "a" t3;
           EvFailed "a" "late" t3] = true
  /\ exists t',
       tasks (run q_completed
                [EvProgress "a" "late" None t3; EvCancel "a" t3;
                 EvFailed "a" "late" t3]) !! "a" = Some t'
       /\ started_at t' = Some t1.
Proof.
  split; [reflexivity |].
  apply (started_at_write_once
           [EvProgress "a" "late" None t3; EvCancel "a" t3;
            EvFailed "a" "late" t3]
           q_completed "a"
           (mk_Task "a" "open example.org" COMPLETED t0 (Some t1) (Some t2)
              (PDict [("success", PBool true)]) PNone
              [PDict [("timestamp", PStr (isoformat t1));
                      ("step", PStr "Starting execution");
                      ("details", PDict [])]]
              "mac_studio" "llama4:scout" "anti_bot") t1);
    reflexivity.
Defined.

(** ** A whole execution *)

Lemma broadcast_task_update_returns task_id update_type data now broken w :
  outcome (broadcast_task_update task_id update_type data now broken) w
  = Returns tt.
Proof.
  unfold outcome, broadcast_task_update, send_to_task_subscribers.
  unfold bind at 1. unfold gets.
  destruct (task_subscribers w !! task_id) as [subs|]; [| done].
  unfold bind. rewrite send_loop_spec. apply disconnect_all_returns.
Qed.

Lemma on_broadcast task_id update_type data now broken s :
  on_websocket_manager
    (broadcast_task_update task_id update_type data now broken) s
  = (Returns tt,
     mk_Service (task_queue s)
       (exec (broadcast_task_update task_id update_type data now broken)
             (websocket_manager s))).
Proof.
  unfold on_websocket_manager, exec.
  pose proof (broadcast_task_update_returns task_id update_type data now
                broken (websocket_manager s)) as H.
  unfold outcome in H.
  destruct (broadcast_task_update _ _ _ _ _ _) as [c w]. simpl in *.
  by subst.
Qed.

Lemma on_add_task_progress task_id step details now s :
  on_task_queue (add_task_progress task_id step details now) s
  = (Returns tt,
     mk_Service (exec (add_task_progress task_id step details now)
                      (task_queue s))
                (websocket_manager s)).
Proof.
  unfold on_task_queue, exec.
  destruct (tasks (task_queue s) !! task_id) as [t|] eqn:Ht.
  - by rewrite (add_task_progress_known _ _ _ _ _ _ Ht).
  - by rewrite (add_task_progress_unknown _ _ _ _ _ Ht).
Qed.

Lemma worker_progress_spec task_id calls broken s :
  exists w',
    endpoints.worker_progress task_id calls broken s
    = (Returns tt,
       mk_Service
         (fold_left
            (fun q c =>
               exec (add_task_progress task_id (endpoints.pc_step c)
                       (Some (endpoints.pc_details c)) (endpoints.pc_now c)) q)
            calls (task_queue s))
         w').
Proof.
  revert s. induction calls as [|c calls IH]; intros s.
  - exists (websocket_manager s). by destruct s.
  - cbn [endpoints.worker_progress fold_left].
    unfold bind at 1. unfold endpoints.handle_task_progress.
    unfold bind at 1. rewrite on_add_task_progress.
    unfold broadcast_agent_step. rewrite on_broadcast.
    cbn [task_queue websocket_manager].
    destruct (IH (mk_Service
                    (exec (add_task_progress task_id (endpoints.pc_step c)
                             (Some (endpoints.pc_details c))
                             (endpoints.pc_now c)) (task_queue s))
                    (exec (broadcast_task_update task_id "agent_step"
                             [("step", PStr (endpoints.pc_step c));
                              ("details", PDict (endpoints.pc_details c))]
                             (endpoints.pc_sent c) broken)
                          (websocket_manager s))))
      as (w' & ->).
    by exists w'.
Qed.

Lemma add_progress_call c t :
  add_progress (endpoints.pc_step c) (Some (endpoints.pc_details c))
               (endpoints.pc_now c) t
  = with_progress (progress t ++ [endpoints.entry_of c])%list t.
Proof.
  unfold add_progress, endpoints.entry_of.
  by destruct (endpoints.pc_details c).
Qed.

Lemma fold_progress task_id calls q t :
  tasks q !! task_id = Some t ->
  tasks (fold_left
           (fun q c =>
              exec (add_task_progress task_id (endpoints.pc_step c)
                      (Some (endpoints.pc_details c)) (endpoints.pc_now c)) q)
           calls q) !! task_id
  = Some (with_progress (progress t ++ map endpoints.entry_of calls)%list t)
  /\ running_tasks (fold_left
           (fun q c =>
              exec (add_task_progress task_id (endpoints.pc_step c)
                      (Some (endpoints.pc_details c)) (endpoints.pc_now c)) q)
           calls q) = running_tasks q
  /\ forall j, j <> task_id ->
       tasks (fold_left
           (fun q c =>
              exec (add_task_progress task_id (endpoints.pc_step c)
                      (Some (endpoints.pc_details c)) (endpoints.pc_now c)) q)
           calls q) !! j = tasks q !! j.
Proof.
  revert q t. induction calls as [|c calls IH]; intros q t Ht.
  - simpl. rewrite app_nil_r. split_and!; [| done | done].
    rewrite Ht. by destruct t.
  - cbn [fold_left map].
    assert (Hk : tasks (exec (add_task_progress task_id (endpoints.pc_step c)
                                (Some (endpoints.pc_details c))
                                (endpoints.pc_now c)) q) !! task_id
                 = Some (with_progress
                           (progress t ++ [endpoints.entry_of c])%list t)).
    { rewrite exec_add_task_progress. simpl.
      rewrite lookup_alter_eq, Ht. simpl. by rewrite add_progress_call. }
    destruct (IH _ _ Hk) as (H1 & H2 & H3). split_and!.
    + rewrite H1. simpl. f_equal. unfold with_progress. simpl.
      by rewrite <- app_assoc.
    + rewrite H2. by rewrite exec_add_task_progress.
    + intros j Hj. rewrite (H3 j Hj). rewrite exec_add_task_progress. simpl.
      by rewrite lookup_alter_ne.
Qed.

(** X23: [execute_task] from start to end.  For an id the registry does not
    know it does nothing at all.  For a known task it never raises; the
    task's progress afterwards is what it was, then the entry "Starting
    execution", then one entry for each call of the worker's progress
    callback, in order; if the worker returned, the task is [COMPLETED]
    with the returned dict as result and its error untouched, and if the
    worker raised, it is [FAILED] with the exception's text as error and
    its result untouched; the completion time is that of the report; the
    id is tracked no more; and no other task has changed. *)
Theorem execute_task_records_worker (s : Service) (task_id : string)
    (started started_sent : datetime) (calls : list endpoints.ProgressCall)
    (worker : pydict + string) (ended ended_sent : datetime)
    (broken : WebSocket -> bool) :
  match tasks (task_queue s) !! task_id with
  | None =>
      endpoints.execute_task task_id started started_sent calls worker
        ended ended_sent broken s
      = (Returns tt, s)
  | Some t =>
      exists s' t',
        endpoints.execute_task task_id started started_sent calls worker
          ended ended_sent broken s
        = (Returns tt, s')
        /\ tasks (task_queue s') !! task_id = Some t'
        /\ progress t'
           = (progress t
              ++ [PDict [("timestamp", PStr (isoformat started));
                         ("step", PStr "Starting execution");
                         ("details", PDict [])]]
              ++ map endpoints.entry_of calls)%list
        /\ status t'
           = match worker with inl _ => COMPLETED | inr _ => FAILED end
        /\ result t'
           = match worker with inl res => PDict res | inr _ => result t end
        /\ error t'
           = match worker with inl _ => error t | inr msg => PStr msg end
        /\ completed_at t' = Some ended
        /\ running_tasks (task_queue s') !! task_id = None
        /\ forall j, j <> task_id ->
             tasks (task_queue s') !! j = tasks (task_queue s) !! j
  end.
Proof.
  destruct (tasks (task_queue s) !! task_id) as [t|] eqn:Ht.
  - unfold endpoints.execute_task. unfold bind at 1.
    unfold on_task_queue at 1, get_task, gets. cbn [fst snd].
    rewrite Ht. cbn [task_queue websocket_manager].
    replace (mk_Service (task_queue s) (websocket_manager s)) with s
      by by destruct s.
    unfold bind at 1. rewrite on_add_task_progress.
    unfold bind at 1. unfold broadcast_agent_step. rewrite on_broadcast.
    cbn [task_queue websocket_manager].
    unfold bind at 1.
    match goal with
    | |- context [endpoints.worker_progress ?i ?c ?b ?x] =>
        destruct (worker_progress_spec i c b x) as (w2 & ->);
        cbn [task_queue websocket_manager]
    end.
    assert (Hk : tasks (exec (add_task_progress task_id "Starting execution"
                                None started) (task_queue s)) !! task_id
                 = Some (add_progress "Starting execution" None started t)).
    { rewrite exec_add_task_progress. simpl.
      by rewrite lookup_alter_eq, Ht. }
    destruct (fold_progress task_id calls _ _ Hk) as (H1 & H2 & H3).
    set (q2 := fold_left _ calls _) in *.
    assert (Hf : tasks (forget_running task_id q2) !! task_id
                 = Some (with_progress
                           (progress (add_progress "Starting execution" None
                                        started t)
                            ++ map endpoints.entry_of calls)%list
                           (add_progress "Starting execution" None started t)))
      by by rewrite tasks_forget_running.
    assert (Hother : forall j, j <> task_id ->
               tasks q2 !! j = tasks (task_queue s) !! j).
    { intros j Hj. rewrite (H3 j Hj), exec_add_task_progress. simpl.
      by rewrite lookup_alter_ne. }
    destruct worker as [res|msg].
    + unfold bind at 1. unfold on_task_queue at 1.
      cbn [task_queue websocket_manager].
      rewrite mark_task_completed_eq.
      rewrite (update_task_status_known _ _ _ _ _ _ Hf).
      unfold broadcast_task_completed. rewrite on_broadcast.
      cbn [task_queue websocket_manager].
      do 2 eexists. split; [reflexivity |]. cbn [task_queue].
      split_and!.
      * simpl. by rewrite lookup_insert_eq.
      * simpl. by rewrite <- app_assoc.
      * done.
      * simpl. by rewrite lookup_singleton_eq.
      * simpl. by rewrite lookup_singleton_ne.
      * done.
      * simpl. rewrite running_tasks_forget_running. apply lookup_delete_eq.
      * intros j Hj. simpl. rewrite lookup_insert_ne by done.
        rewrite tasks_forget_running. by apply Hother.
    + unfold bind at 1. unfold on_task_queue at 1.
      cbn [task_queue websocket_manager].
      rewrite mark_task_failed_eq.
      rewrite (update_task_status_known _ _ _ _ _ _ Hf).
      unfold broadcast_task_failed. rewrite on_broadcast.
      cbn [task_queue websocket_manager].
      do 2 eexists. split; [reflexivity |]. cbn [task_queue].
      split_and!.
      * simpl. by rewrite lookup_insert_eq.
      * simpl. by rewrite <- app_assoc.
      * done.
      * simpl. by rewrite lookup_singleton_ne.
      * simpl. by rewrite lookup_singleton_eq.
      * done.
      * simpl. rewrite running_tasks_forget_running. apply lookup_delete_eq.
      * intros j Hj. simpl. rewrite lookup_insert_ne by done.
        rewrite tasks_forget_running. by apply Hother.
  - unfold endpoints.execute_task. unfold bind at 1.
    unfold on_task_queue at 1, get_task, gets. cbn [fst snd].
    rewrite Ht. by destruct s.
Qed.
